(** * ADGM Corporate Agent: a shallow embedding of the React front end

    The development follows the four source files of the project:
    [DocumentUploader.tsx] (file selection and the simulated analysis run),
    [ADGMChecklists.tsx] (the process -> required documents table),
    [ComplianceAnalyzer.tsx] (the rule table and its filter) and
    [RAGSystem.tsx] (the knowledge sources and their reindexing).

    React state is modelled by explicit state passing: every component is a
    record of its [useState] cells, every handler a function on that record,
    and every [setTimeout] a pending entry that a later [timeout] step runs. *)

From Stdlib Require Import Bool Arith Lia ZArith QArith Qround Qminmax.
From Stdlib Require Import Ascii String List.
Import ListNotations.

Close Scope Q_scope.
Open Scope string_scope.
Open Scope list_scope.

(** ** JavaScript string primitives used by the handlers *)

Module JS.

(** Strings are sequences of code units. [String.prototype.toLowerCase] is
    modelled on the code units A-Z; every other code unit is left as it is
    (the tables and the ".docx" suffix the handlers compare with are plain
    ASCII). *)
Definition lowerChar (c : ascii) : ascii :=
  let n := N_of_ascii c in
  if ((65 <=? n) && (n <=? 90))%N then ascii_of_N (n + 32) else c.

Fixpoint toLowerCase (s : string) : string :=
  match s with
  | EmptyString => EmptyString
  | String c rest => String (lowerChar c) (toLowerCase rest)
  end.

(** [s.startsWith(t)] *)
Definition startsWith (s t : string) : bool := String.prefix t s.

(** [s.endsWith(t)]: some tail of [s] is [t]. *)
Fixpoint endsWith (s t : string) : bool :=
  if String.eqb s t then true
  else match s with
       | EmptyString => false
       | String _ rest => endsWith rest t
       end.

(** [s.includes(t)]: [t] starts at some position of [s]. *)
Fixpoint includes (s t : string) : bool :=
  if startsWith s t then true
  else match s with
       | EmptyString => false
       | String _ rest => includes rest t
       end.

(** A JavaScript value, as far as the report object needs it. *)
#[local] Unset Elimination Schemes.
Inductive Value : Type :=
| Str (s : string)
| Num (q : Q)
| Arr (items : list Value)
| Obj (props : list (string * Value)).
#[local] Set Elimination Schemes.

(** Own-property lookup [o[k]]; [None] is [undefined]. *)
Fixpoint get (k : string) (props : list (string * Value)) : option Value :=
  match props with
  | [] => None
  | (k', v) :: rest => if String.eqb k k' then Some v else get k rest
  end.

(** [Object.keys(o)] *)
Definition keys (props : list (string * Value)) : list string :=
  map fst props.

End JS.

(** ** ADGMChecklists.tsx *)

Module Checklists.

Record ChecklistItem := {
  name : string;
  required : bool;
  description : string
}.

Record ProcessChecklist := {
  process : string;
  process_description : string;
  documents : list ChecklistItem
}.

Definition item (n d : string) : ChecklistItem :=
  {| name := n; required := true; description := d |}.

Definition ADGM_CHECKLISTS : list ProcessChecklist :=
  [ {| process := "Company Incorporation";
       process_description := "Required documents for incorporating a company in ADGM";
       documents :=
         [ item "Articles of Association (AoA)"
                "Defines the company's internal rules and regulations";
           item "Memorandum of Association (MoA)"
                "Outlines the company's constitution and scope of activities";
           item "Incorporation Application Form"
                "Official ADGM form for company registration";
           item "UBO Declaration Form"
                "Ultimate Beneficial Ownership declaration as per AML requirements";
           item "Register of Members and Directors"
                "Initial register of company members and directors" ] |};
    {| process := "Financial Services Licensing";
       process_description := "Documents required for FSRA licensing in ADGM";
       documents :=
         [ item "FSRA License Application"
                "Application for Financial Services Regulatory Authority license";
           item "Business Plan"
                "Detailed business plan including financial projections";
           item "Compliance Manual"
                "Internal compliance policies and procedures";
           item "Risk Management Framework"
                "Risk assessment and management policies";
           item "Key Personnel CVs"
                "Curriculum vitae of key management personnel" ] |};
    {| process := "Employment Visa Application";
       process_description := "Documents for ADGM employment visa processing";
       documents :=
         [ item "Employment Contract"
                "ADGM-compliant employment agreement";
           item "Educational Certificates"
                "Attested educational qualifications";
           item "Experience Certificates"
                "Previous employment experience documentation";
           item "Medical Certificate"
                "Health clearance from approved medical center";
           item "Passport Copy"
                "Valid passport with minimum 6 months validity" ] |} ].

(** [displayChecklists] of the component: the table filtered by the selected
    process, or the whole table when none is selected. *)
Definition displayChecklists (selectedProcess : option string)
  : list ProcessChecklist :=
  match selectedProcess with
  | Some p => filter (fun c => String.eqb (process c) p) ADGM_CHECKLISTS
  | None => ADGM_CHECKLISTS
  end.

(** The ordered required checklist of a process: the names of the documents
    marked [required] in every table entry of that process. *)
Definition requiredChecklist (p : string) : list string :=
  flat_map (fun c => map name (filter required (documents c)))
           (displayChecklists (Some p)).

End Checklists.

(** ** DocumentUploader.tsx *)

Module Uploader.

(** The part of a browser [File] the component reads. *)
Record File := {
  name : string;
  size : N
}.

Inductive Severity := High | Medium | Low.

Record Issue := {
  document : string;
  section : string;
  issue : string;
  severity : Severity;
  suggestion : string
}.

Record DocumentAnalysis := {
  process : string;
  documents_uploaded : nat;
  required_documents : nat;
  missing_documents : list string;
  issues_found : list Issue
}.

(** The component's [useState] cells, the pending [setTimeout] callbacks
    (oldest first; each closure holds the [files] of the render that
    scheduled it), the calls made to the [onAnalysisComplete] prop (oldest
    first) and the [alert] boxes shown. *)
Record State := {
  files : list File;
  isAnalyzing : bool;
  analysis : option DocumentAnalysis;
  timers : list (list File);
  completed : list DocumentAnalysis;
  alerts : list string
}.

Definition initial : State :=
  {| files := []; isAnalyzing := false; analysis := None;
     timers := []; completed := []; alerts := [] |}.

Definition isDocx (file : File) : bool :=
  JS.endsWith (JS.toLowerCase (name file)) ".docx".

(** [handleFileUpload]; the argument is [event.target.files], [None] when
    the input has no file list. *)
Definition handleFileUpload (targetFiles : option (list File)) (s : State)
  : State :=
  let uploadedFiles := match targetFiles with Some l => l | None => [] end in
  let docxFiles := filter isDocx uploadedFiles in
  if negb (length docxFiles =? length uploadedFiles)%nat then
    {| files := files s; isAnalyzing := isAnalyzing s;
       analysis := analysis s; timers := timers s;
       completed := completed s;
       alerts := alerts s ++ ["Please upload only .docx files"] |}
  else
    {| files := docxFiles; isAnalyzing := isAnalyzing s;
       analysis := analysis s; timers := timers s;
       completed := completed s; alerts := alerts s |}.

(** The object literal built inside the timer callback. *)
Definition mockAnalysis (files : list File) : DocumentAnalysis :=
  {| process := "Company Incorporation";
     documents_uploaded := length files;
     required_documents := 5;
     missing_documents :=
       if (length files <? 5)%nat then ["Register of Members and Directors"]
       else [];
     issues_found :=
       [ {| document := "Articles of Association";
            section := "Clause 3.1";
            issue := "Jurisdiction clause does not specify ADGM";
            severity := High;
            suggestion := "Update jurisdiction to ADGM Courts per ADGM Companies Regulations 2020, Art. 6" |};
         {| document := "Memorandum of Association";
            section := "Section 2.3";
            issue := "Missing UBO declaration reference";
            severity := Medium;
            suggestion := "Include reference to UBO Declaration Form as required by ADGM AML regulations" |} ] |}.

(** [analyzeDocuments] up to its [setTimeout] call. *)
Definition analyzeDocuments (s : State) : State :=
  if (length (files s) =? 0)%nat then s
  else
    {| files := files s; isAnalyzing := true; analysis := analysis s;
       timers := timers s ++ [files s];
       completed := completed s; alerts := alerts s |}.

(** The oldest pending timer callback runs: [setAnalysis],
    [onAnalysisComplete], [setIsAnalyzing(false)]. *)
Definition timeout (s : State) : State :=
  match timers s with
  | [] => s
  | captured :: rest =>
      let mock := mockAnalysis captured in
      {| files := files s; isAnalyzing := false; analysis := Some mock;
         timers := rest; completed := completed s ++ [mock];
         alerts := alerts s |}
  end.

(** What can happen to the component. The analyze button is rendered only
    below a non-empty file list and is disabled while [isAnalyzing]. *)
Inductive Event :=
| Select (targetFiles : option (list File))
| ClickAnalyze
| TimerFires.

Definition step (s : State) (e : Event) : State :=
  match e with
  | Select targetFiles => handleFileUpload targetFiles s
  | ClickAnalyze =>
      if (0 <? length (files s))%nat && negb (isAnalyzing s)
      then analyzeDocuments s else s
  | TimerFires => timeout s
  end.

Definition run (s : State) (es : list Event) : State := fold_left step es s.

Inductive reachable : State -> Prop :=
| reach_initial : reachable initial
| reach_step s e : reachable s -> reachable (step s e).

(** All pending timers run, oldest first. *)
Definition drain (s : State) : State :=
  Nat.iter (length (timers s)) timeout s.

(** One analysis run from start to finish: the handler, then the timers. *)
Definition runAnalysis (s : State) : State := drain (analyzeDocuments s).

(** The report as the JavaScript object handed to [setAnalysis] and
    [onAnalysisComplete]: the own properties of the literal, in order. *)
Definition severityLabel (v : Severity) : string :=
  match v with High => "High" | Medium => "Medium" | Low => "Low" end.

Definition issueObject (i : Issue) : JS.Value :=
  JS.Obj [ ("document", JS.Str (document i));
           ("section", JS.Str (section i));
           ("issue", JS.Str (issue i));
           ("severity", JS.Str (severityLabel (severity i)));
           ("suggestion", JS.Str (suggestion i)) ].

Definition toObject (a : DocumentAnalysis) : list (string * JS.Value) :=
  [ ("process", JS.Str (process a));
    ("documents_uploaded", JS.Num (inject_Z (Z.of_nat (documents_uploaded a))));
    ("required_documents", JS.Num (inject_Z (Z.of_nat (required_documents a))));
    ("missing_documents", JS.Arr (map JS.Str (missing_documents a)));
    ("issues_found", JS.Arr (map issueObject (issues_found a))) ].

(** What the reachable states hold: every pending timer has captured a
    non-empty file list, and every report stored or handed to the callback
    is the report on a non-empty file list. *)
Definition wellFormed (s : State) : Prop :=
  Forall (fun captured => captured <> []) (timers s)
  /\ Forall (fun r => exists fs, fs <> [] /\ r = mockAnalysis fs)
            (completed s)
  /\ (forall r, analysis s = Some r -> In r (completed s)).

(** [getSeverityColor] *)
Definition getSeverityColor (severity : string) : string :=
  if String.eqb severity "High" then "text-red-600 bg-red-50"
  else if String.eqb severity "Medium" then "text-yellow-600 bg-yellow-50"
  else if String.eqb severity "Low" then "text-blue-600 bg-blue-50"
  else "text-gray-600 bg-gray-50".

End Uploader.

(** ** ComplianceAnalyzer.tsx *)

Module Compliance.

Inductive Severity := High | Medium | Low.

Record ComplianceRule := {
  id : string;
  category : string;
  rule : string;
  description : string;
  severity : Severity;
  reference : string
}.

Definition ADGM_COMPLIANCE_RULES : list ComplianceRule :=
  [ {| id := "COMP-001";
       category := "Jurisdiction";
       rule := "ADGM Court Jurisdiction";
       description := "All legal documents must specify ADGM Courts as the governing jurisdiction";
       severity := High;
       reference := "ADGM Companies Regulations 2020, Article 6" |};
    {| id := "COMP-002";
       category := "Corporate Governance";
       rule := "Director Minimum Requirements";
       description := "At least one director must be a natural person";
       severity := High;
       reference := "ADGM Companies Regulations 2020, Article 155" |};
    {| id := "COMP-003";
       category := "AML/CFT";
       rule := "UBO Declaration";
       description := "Ultimate Beneficial Ownership must be declared for all entities";
       severity := High;
       reference := "ADGM AML Rules 2019, Rule 3.2" |};
    {| id := "COMP-004";
       category := "Share Capital";
       rule := "Minimum Share Capital";
       description := "Companies must maintain minimum authorized share capital as per license type";
       severity := Medium;
       reference := "ADGM Companies Regulations 2020, Article 64" |};
    {| id := "COMP-005";
       category := "Registered Office";
       rule := "ADGM Registered Address";
       description := "Companies must maintain a registered office address within ADGM";
       severity := High;
       reference := "ADGM Companies Regulations 2020, Article 29" |};
    {| id := "COMP-006";
       category := "Financial Services";
       rule := "FSRA Authorization";
       description := "Financial services activities require FSRA authorization";
       severity := High;
       reference := "ADGM FSMR 2015, Article 9" |} ].

Record State := {
  selectedCategory : string;
  searchTerm : string
}.

Definition initial : State :=
  {| selectedCategory := "All"; searchTerm := "" |}.

Definition setSelectedCategory (c : string) (s : State) : State :=
  {| selectedCategory := c; searchTerm := searchTerm s |}.

Definition setSearchTerm (t : string) (s : State) : State :=
  {| selectedCategory := selectedCategory s; searchTerm := t |}.

(** [Array.from(new Set(xs))]: first occurrences, in insertion order. *)
Fixpoint fromSet (seen xs : list string) : list string :=
  match xs with
  | [] => []
  | x :: rest =>
      if existsb (String.eqb x) seen then fromSet seen rest
      else x :: fromSet (x :: seen) rest
  end.

Definition categories : list string :=
  "All" :: fromSet [] (map category ADGM_COMPLIANCE_RULES).

(** The callback given to [ADGM_COMPLIANCE_RULES.filter]. *)
Definition keeps (s : State) (r : ComplianceRule) : bool :=
  let matchesCategory :=
    String.eqb (selectedCategory s) "All"
    || String.eqb (category r) (selectedCategory s) in
  let matchesSearch :=
    JS.includes (JS.toLowerCase (rule r)) (JS.toLowerCase (searchTerm s))
    || JS.includes (JS.toLowerCase (description r))
                   (JS.toLowerCase (searchTerm s)) in
  matchesCategory && matchesSearch.

Definition filteredRules (s : State) : list ComplianceRule :=
  filter (keeps s) ADGM_COMPLIANCE_RULES.

End Compliance.

(** ** RAGSystem.tsx *)

Module RAG.

Inductive SourceType := regulation | guideline | form | template.

Inductive Status := active | indexed | error.

Record KnowledgeSource := {
  id : string;
  title : string;
  type : SourceType;
  url : string;
  lastUpdated : string;
  description : string;
  status : Status
}.

Definition typeLabel (t : SourceType) : string :=
  match t with
  | regulation => "regulation"
  | guideline => "guideline"
  | form => "form"
  | template => "template"
  end.

Definition ADGM_KNOWLEDGE_SOURCES : list KnowledgeSource :=
  [ {| id := "adgm-companies-reg-2020";
       title := "ADGM Companies Regulations 2020";
       type := regulation;
       url := "https://www.adgm.com/doing-business/legal-framework/companies-regulations";
       lastUpdated := "2024-01-15";
       description := "Comprehensive regulations governing company formation and operations in ADGM";
       status := indexed |};
    {| id := "adgm-aml-rules-2019";
       title := "ADGM AML Rules 2019";
       type := regulation;
       url := "https://www.adgm.com/doing-business/legal-framework/aml-rules";
       lastUpdated := "2023-12-10";
       description := "Anti-Money Laundering and Counter-Terrorist Financing rules";
       status := indexed |};
    {| id := "fsra-licensing-guide";
       title := "FSRA Licensing Guidelines";
       type := guideline;
       url := "https://www.adgm.com/fsra/licensing";
       lastUpdated := "2024-02-01";
       description := "Guidelines for obtaining Financial Services Regulatory Authority licenses";
       status := indexed |};
    {| id := "incorporation-forms";
       title := "Company Incorporation Forms";
       type := form;
       url := "https://www.adgm.com/doing-business/company-incorporation/forms";
       lastUpdated := "2024-01-20";
       description := "Official forms required for company incorporation in ADGM";
       status := active |};
    {| id := "employment-regulations";
       title := "ADGM Employment Regulations";
       type := regulation;
       url := "https://www.adgm.com/doing-business/legal-framework/employment-regulations";
       lastUpdated := "2023-11-30";
       description := "Regulations governing employment relationships in ADGM";
       status := indexed |} ].

(** The [useState] cells and the number of pending [setTimeout] callbacks. *)
Record State := {
  sources : list KnowledgeSource;
  searchQuery : string;
  isIndexing : bool;
  selectedType : string;
  timers : nat
}.

Definition initial : State :=
  {| sources := ADGM_KNOWLEDGE_SOURCES; searchQuery := "";
     isIndexing := false; selectedType := "all"; timers := 0 |}.

Definition filteredSources (s : State) : list KnowledgeSource :=
  filter (fun source =>
            let matchesSearch :=
              JS.includes (JS.toLowerCase (title source))
                          (JS.toLowerCase (searchQuery s))
              || JS.includes (JS.toLowerCase (description source))
                             (JS.toLowerCase (searchQuery s)) in
            let matchesType :=
              String.eqb (selectedType s) "all"
              || String.eqb (typeLabel (type source)) (selectedType s) in
            matchesSearch && matchesType)
         (sources s).

(** [handleReindex] up to its [setTimeout] call. *)
Definition handleReindex (s : State) : State :=
  {| sources := sources s; searchQuery := searchQuery s;
     isIndexing := true; selectedType := selectedType s;
     timers := S (timers s) |}.

(** The updater given to [setSources]. [today k] is what the [k]-th
    evaluation of [new Date().toISOString().split('T')[0]] returns
    during this call: the expression is evaluated once per source. *)
Fixpoint reindexed (today : nat -> string) (k : nat)
         (prev : list KnowledgeSource) : list KnowledgeSource :=
  match prev with
  | [] => []
  | source :: rest =>
      {| id := id source; title := title source; type := type source;
         url := url source; lastUpdated := today k;
         description := description source; status := indexed |}
      :: reindexed today (S k) rest
  end.

(** A pending timer callback runs. *)
Definition timeout (today : nat -> string) (s : State) : State :=
  match timers s with
  | O => s
  | S pending =>
      {| sources := reindexed today 0 (sources s);
         searchQuery := searchQuery s; isIndexing := false;
         selectedType := selectedType s; timers := pending |}
  end.

(** One reindex from the click to the end of its timer callback. *)
Definition reindex (today : nat -> string) (s : State) : State :=
  timeout today (handleReindex s).

(** What reindexing may change in one source: nothing but [status], which
    becomes [indexed], and [lastUpdated]. *)
Definition reindexedFrom (old new : KnowledgeSource) : Prop :=
  id new = id old
  /\ title new = title old
  /\ type new = type old
  /\ url new = url old
  /\ description new = description old
  /\ status new = indexed.

End RAG.

(** ** The analysis engine of the specification

    The front end only simulates an analysis run. The parts of the engine
    that the claims speak about and that no source file contains are
    written down here from the specification, under their own names. *)

Module Engine.

(** Modelled from the spec: the document-type inference of the Process
    Classifier (section 4.3, filename pattern-matching against a label
    dictionary), which the source does not contain. The declared type of
    a file is the first label of the dictionary that occurs in the file
    name, case-insensitively; [None] is the unknown type. *)
Definition declaredType (labels : list string) (file : Uploader.File)
  : option string :=
  find (fun label =>
          JS.includes (JS.toLowerCase (Uploader.name file))
                      (JS.toLowerCase label))
       labels.

(** Modelled from the spec: the uploaded-type set of section 4.4, the
    declared types of the uploaded files under a type inference [typeOf]
    (files of unknown type contribute none). *)
Definition uploadedTypes (typeOf : Uploader.File -> option string)
           (files : list Uploader.File) : list string :=
  flat_map (fun f => match typeOf f with Some t => [t] | None => [] end)
           files.

(** Modelled from the spec: the Checklist Verifier (section 4.4), which the
    source does not contain: the required checklist minus the uploaded
    types, in checklist order. *)
Definition missing (requiredChecklist uploaded : list string)
  : list string :=
  filter (fun t => negb (existsb (String.eqb t) uploaded)) requiredChecklist.

(** Modelled from the spec: the Confidence Scorer (section 4.6), which the
    source does not contain. The weights and the per-document cap are the
    fixed configuration; the three terms are the checklist completeness
    ratio, the inverse severity load (High 3, Medium 2, Low 1, normalised
    against the batch-size-scaled cap) and the rule-coverage ratio; the
    weighted sum is clamped to [0,1] and rounded to two decimals. *)
Record Weights := {
  wChecklist : Q;
  wSeverity : Q;
  wCoverage : Q;
  capPerDocument : positive
}.

(** Modelled from the spec: what the score of section 4.6 is computed from:
    the two document counts, the severities of the issues found and the
    counts of evaluated and applicable rules. *)
Record Inputs := {
  documentsUploaded : nat;
  requiredDocuments : nat;
  issues : list Uploader.Severity;
  evaluatedRules : nat;
  applicableRules : nat
}.

(** Modelled from the spec: a count as a rational number. *)
Definition ofNat (n : nat) : Q := inject_Z (Z.of_nat n).

(** Modelled from the spec: "High weight 3, Medium 2, Low 1". *)
Definition severityWeight (v : Uploader.Severity) : nat :=
  match v with
  | Uploader.High => 3
  | Uploader.Medium => 2
  | Uploader.Low => 1
  end.

(** Modelled from the spec: the weighted issue count. *)
Definition weightedIssueCount (l : list Uploader.Severity) : nat :=
  fold_right (fun v acc => severityWeight v + acc) 0 l.

(** Modelled from the spec: the High-severity issue count. *)
Definition highCount (l : list Uploader.Severity) : nat :=
  length (filter (fun v => match v with Uploader.High => true | _ => false end) l).

#[local] Open Scope Q_scope.

(** Modelled from the spec: "checklist completeness ratio =
    uploaded/required". *)
Definition completeness (i : Inputs) : Q :=
  ofNat (documentsUploaded i) / ofNat (requiredDocuments i).

(** Modelled from the spec: the "batch-size-scaled cap". *)
Definition severityCap (w : Weights) (i : Inputs) : Q :=
  inject_Z (Zpos (capPerDocument w)) * ofNat (documentsUploaded i).

(** Modelled from the spec: "inverse severity load = 1 - normalized weighted
    issue count"; the normalised count is the ratio to the cap, at most 1. *)
Definition inverseSeverityLoad (w : Weights) (i : Inputs) : Q :=
  1 - Qmin 1 (ofNat (weightedIssueCount (issues i)) / severityCap w i).

(** Modelled from the spec: "rule-coverage ratio = evaluated rules /
    applicable rules". *)
Definition ruleCoverage (i : Inputs) : Q :=
  ofNat (evaluatedRules i) / ofNat (applicableRules i).

(** Modelled from the spec: the "weighted combination" of the three terms. *)
Definition rawScore (w : Weights) (i : Inputs) : Q :=
  wChecklist w * completeness i
  + wSeverity w * inverseSeverityLoad w i
  + wCoverage w * ruleCoverage i.

(** Modelled from the spec: "score is clamped to [0,1]". *)
Definition clamp01 (q : Q) : Q := Qmax 0 (Qmin 1 q).

(** Modelled from the spec: "rounded to two decimals", here half up, as a
    number of hundredths. *)
Definition hundredths (q : Q) : Z := Qfloor (q * 100 + (1 # 2)).

(** Modelled from the spec: the rounded value, [hundredths] over 100. *)
Definition round2 (q : Q) : Q := hundredths q # 100.

(** Modelled from the spec: [score(report)] of section 4.6. *)
Definition score (w : Weights) (i : Inputs) : Q :=
  round2 (clamp01 (rawScore w i)).

(** Modelled from the spec: the same inputs with one more High-severity
    issue ("holding other inputs fixed"). *)
Definition addHigh (i : Inputs) : Inputs :=
  {| documentsUploaded := documentsUploaded i;
     requiredDocuments := requiredDocuments i;
     issues := Uploader.High :: issues i;
     evaluatedRules := evaluatedRules i;
     applicableRules := applicableRules i |}.

(** Modelled from the spec: the same inputs with [n] more High-severity
    issues. *)
Definition addHighs (n : nat) (i : Inputs) : Inputs := Nat.iter n addHigh i.

#[local] Close Scope Q_scope.

End Engine.

(** ** Predicates the statements use *)

(** [name] ends in [ext], letter case apart ([ext] is given in lower case). *)
Definition endsWithCI (name ext : string) : Prop :=
  exists stem tail,
    name = (stem ++ tail)%string /\ JS.toLowerCase tail = ext.

(** [s] contains [t], letter case apart. *)
Definition containsCI (s t : string) : Prop :=
  exists before mid after,
    s = (before ++ mid ++ after)%string
    /\ JS.toLowerCase mid = JS.toLowerCase t.

(** [l1] is [l2] with some elements left out, order kept. *)
Inductive subsequence {A : Type} : list A -> list A -> Prop :=
| sub_nil : subsequence [] []
| sub_skip x l1 l2 : subsequence l1 l2 -> subsequence l1 (x :: l2)
| sub_keep x l1 l2 : subsequence l1 l2 -> subsequence (x :: l1) (x :: l2).

(** The confidence score of a report object, under the name the README's
    sample output gives it. *)
Definition confidenceScore (report : list (string * JS.Value))
  : option JS.Value :=
  JS.get "confidence_score" report.

Definition registerOfMembers : string := "Register of Members and Directors".

(** ** What the components put on screen, and the application shell *)

Module UploaderView.

Import Uploader.

(** [files.length > 0 && (...)]: the file list and the analyze button are
    rendered. *)
Definition showsFiles (s : State) : bool := (0 <? length (files s))%nat.

(** [analysis.missing_documents.length > 0 && (...)]: the Missing Documents
    box is rendered. *)
Definition showsMissing (a : DocumentAnalysis) : bool :=
  (0 <? length (missing_documents a))%nat.

(** [analysis.issues_found.length > 0 && (...)]: the Issues Identified list
    is rendered. *)
Definition showsIssues (a : DocumentAnalysis) : bool :=
  (0 <? length (issues_found a))%nat.

(** Every name of a file list has the extension ".docx", whatever its
    letter case. *)
Definition docxOnly (fs : list File) : Prop :=
  Forall (fun f =>
            exists stem tail,
              name f = (stem ++ tail)%string
              /\ JS.toLowerCase tail = ".docx")
         fs.

End UploaderView.

Module ChecklistsView.

Import Checklists.

(** [displayChecklists] with the optional prop as JavaScript tests it:
    [selectedProcess ? ADGM_CHECKLISTS.filter(...) : ADGM_CHECKLISTS], where
    an absent prop and the empty string are both falsy. *)
Definition displayChecklists (selectedProcess : option string)
  : list ProcessChecklist :=
  match selectedProcess with
  | None => ADGM_CHECKLISTS
  | Some p =>
      if String.eqb p "" then ADGM_CHECKLISTS
      else filter (fun checklist => String.eqb (process checklist) p)
                  ADGM_CHECKLISTS
  end.

End ChecklistsView.

Module ComplianceView.

Import Compliance.

(** [getSeverityColor] of ComplianceAnalyzer.tsx. *)
Definition getSeverityColor (severity : string) : string :=
  if String.eqb severity "High" then "bg-red-100 text-red-800 border-red-200"
  else if String.eqb severity "Medium"
       then "bg-yellow-100 text-yellow-800 border-yellow-200"
  else if String.eqb severity "Low"
       then "bg-blue-100 text-blue-800 border-blue-200"
  else "bg-gray-100 text-gray-800 border-gray-200".

Definition severityLabel (v : Severity) : string :=
  match v with High => "High" | Medium => "Medium" | Low => "Low" end.

(** [filteredRules.length === 0 && (...)]: the "No rules found" notice. *)
Definition showsNoRules (s : State) : bool :=
  (length (filteredRules s) =? 0)%nat.

End ComplianceView.

Module RAGView.

Import RAG.

Definition setSearchQuery (q : string) (s : State) : State :=
  {| sources := sources s; searchQuery := q; isIndexing := isIndexing s;
     selectedType := selectedType s; timers := timers s |}.

Definition setSelectedType (t : string) (s : State) : State :=
  {| sources := sources s; searchQuery := searchQuery s;
     isIndexing := isIndexing s; selectedType := t; timers := timers s |}.

(** The three tiles: [sources.filter(s => s.status === 'active').length],
    the same for ['indexed'], and [sources.length]. *)
Definition activeCount (s : State) : nat :=
  length (filter (fun x => match status x with active => true | _ => false end)
                 (sources s)).

Definition indexedCount (s : State) : nat :=
  length (filter (fun x => match status x with indexed => true | _ => false end)
                 (sources s)).

Definition totalCount (s : State) : nat := length (sources s).

(** Two sources that differ at most in [status] and [lastUpdated]. *)
Definition sameContent (a b : KnowledgeSource) : Prop :=
  id a = id b
  /\ title a = title b
  /\ type a = type b
  /\ url a = url b
  /\ description a = description b.

(** [filteredSources.length === 0 && (...)]: the "No sources found" notice. *)
Definition showsNoSources (s : State) : bool :=
  (length (filteredSources s) =? 0)%nat.

(** What can happen to the component; the reindex button is disabled while
    [isIndexing]. [today] is the clock the timer callback reads. *)
Inductive Event :=
| TypeQuery (q : string)
| ChooseType (t : string)
| ClickReindex
| TimerFires (today : nat -> string).

Definition step (s : State) (e : Event) : State :=
  match e with
  | TypeQuery q => setSearchQuery q s
  | ChooseType t => setSelectedType t s
  | ClickReindex => if isIndexing s then s else handleReindex s
  | TimerFires today => timeout today s
  end.

Definition run (s : State) (es : list Event) : State := fold_left step es s.

Inductive reachable : State -> Prop :=
| reach_initial : reachable RAG.initial
| reach_step s e : reachable s -> reachable (step s e).

End RAGView.

(** ** App.tsx *)

Module App.

Inductive TabType := upload | checklists | compliance | rag.

Definition tabEqb (a b : TabType) : bool :=
  match a, b with
  | upload, upload | checklists, checklists
  | compliance, compliance | rag, rag => true
  | _, _ => false
  end.

(** The three [useState] cells of [App], the state of the component of the
    active tab (only that one is mounted; the others are kept at the state
    they will be mounted with), and the analysis timers that uploader
    instances unmounted since have left behind (oldest first, each with the
    files its closure captured). *)
Record State := {
  activeTab : TabType;
  analysis : option Uploader.DocumentAnalysis;
  isMobileMenuOpen : bool;
  uploader : Uploader.State;
  complianceAnalyzer : Compliance.State;
  ragSystem : RAG.State;
  orphans : list (list Uploader.File)
}.

Definition initial : State :=
  {| activeTab := upload; analysis := None; isMobileMenuOpen := false;
     uploader := Uploader.initial;
     complianceAnalyzer := Compliance.initial;
     ragSystem := RAG.initial;
     orphans := [] |}.

(** [handleAnalysisComplete] *)
Definition handleAnalysisComplete
           (analysisResult : Uploader.DocumentAnalysis) (s : State) : State :=
  {| activeTab := activeTab s; analysis := Some analysisResult;
     isMobileMenuOpen := isMobileMenuOpen s;
     uploader := uploader s;
     complianceAnalyzer := complianceAnalyzer s;
     ragSystem := ragSystem s;
     orphans := orphans s |}.

(** The mobile menu button: [setIsMobileMenuOpen(!isMobileMenuOpen)]. *)
Definition toggleMenu (s : State) : State :=
  {| activeTab := activeTab s; analysis := analysis s;
     isMobileMenuOpen := negb (isMobileMenuOpen s);
     uploader := uploader s;
     complianceAnalyzer := complianceAnalyzer s;
     ragSystem := ragSystem s;
     orphans := orphans s |}.

(** A sidebar button: [setActiveTab(tab.id); setIsMobileMenuOpen(false)].
    When the tab changes, the component of the old tab is unmounted and
    that of the new tab is mounted afresh; the timers of an unmounted
    uploader stay pending, those of an unmounted knowledge base can no
    longer change anything. *)
Definition selectTab (tab : TabType) (s : State) : State :=
  if tabEqb tab (activeTab s) then
    {| activeTab := activeTab s; analysis := analysis s;
       isMobileMenuOpen := false;
       uploader := uploader s;
       complianceAnalyzer := complianceAnalyzer s;
       ragSystem := ragSystem s;
       orphans := orphans s |}
  else
    {| activeTab := tab; analysis := analysis s;
       isMobileMenuOpen := false;
       uploader := Uploader.initial;
       complianceAnalyzer := Compliance.initial;
       ragSystem := RAG.initial;
       orphans := orphans s ++ Uploader.timers (uploader s) |}.

Definition withUploader (u : Uploader.State) (s : State) : State :=
  {| activeTab := activeTab s; analysis := analysis s;
     isMobileMenuOpen := isMobileMenuOpen s;
     uploader := u;
     complianceAnalyzer := complianceAnalyzer s;
     ragSystem := ragSystem s;
     orphans := orphans s |}.

Definition withCompliance (c : Compliance.State) (s : State) : State :=
  {| activeTab := activeTab s; analysis := analysis s;
     isMobileMenuOpen := isMobileMenuOpen s;
     uploader := uploader s;
     complianceAnalyzer := c;
     ragSystem := ragSystem s;
     orphans := orphans s |}.

Definition withRag (r : RAG.State) (s : State) : State :=
  {| activeTab := activeTab s; analysis := analysis s;
     isMobileMenuOpen := isMobileMenuOpen s;
     uploader := uploader s;
     complianceAnalyzer := complianceAnalyzer s;
     ragSystem := r;
     orphans := orphans s |}.

(** The oldest pending analysis timer runs. A timer of an unmounted uploader
    only reaches the application through [onAnalysisComplete]; a timer of
    the mounted uploader also updates that component. *)
Definition analysisTimer (s : State) : State :=
  match orphans s with
  | captured :: rest =>
      {| activeTab := activeTab s;
         analysis := Some (Uploader.mockAnalysis captured);
         isMobileMenuOpen := isMobileMenuOpen s;
         uploader := uploader s;
         complianceAnalyzer := complianceAnalyzer s;
         ragSystem := ragSystem s;
         orphans := rest |}
  | [] =>
      match Uploader.timers (uploader s) with
      | [] => s
      | captured :: _ =>
          handleAnalysisComplete (Uploader.mockAnalysis captured)
            (withUploader (Uploader.timeout (uploader s)) s)
      end
  end.

(** What can happen to the application. The controls of a component exist
    only while its tab is the active one. *)
Inductive Event :=
| SelectTab (tab : TabType)
| ToggleMenu
| UploaderSelect (targetFiles : option (list Uploader.File))
| UploaderClickAnalyze
| AnalysisTimerFires
| ComplianceCategory (category : string)
| ComplianceSearch (term : string)
| Rag (e : RAGView.Event).

Definition step (s : State) (e : Event) : State :=
  match e with
  | SelectTab tab => selectTab tab s
  | ToggleMenu => toggleMenu s
  | UploaderSelect targetFiles =>
      if tabEqb (activeTab s) upload
      then withUploader
             (Uploader.step (uploader s) (Uploader.Select targetFiles)) s
      else s
  | UploaderClickAnalyze =>
      if tabEqb (activeTab s) upload
      then withUploader (Uploader.step (uploader s) Uploader.ClickAnalyze) s
      else s
  | AnalysisTimerFires => analysisTimer s
  | ComplianceCategory c =>
      if tabEqb (activeTab s) compliance
      then withCompliance
             (Compliance.setSelectedCategory c (complianceAnalyzer s)) s
      else s
  | ComplianceSearch t =>
      if tabEqb (activeTab s) compliance
      then withCompliance (Compliance.setSearchTerm t (complianceAnalyzer s)) s
      else s
  | Rag e =>
      if tabEqb (activeTab s) rag
      then withRag (RAGView.step (ragSystem s) e) s
      else s
  end.

Definition run (s : State) (es : list Event) : State := fold_left step es s.

Inductive reachable : State -> Prop :=
| reach_initial : reachable initial
| reach_step s e : reachable s -> reachable (step s e).

(** What the reachable states of the application hold: every pending timer
    has captured a non-empty file list, and the stored analysis, if any, is
    the report on a non-empty file list. *)
Definition wellFormed (s : State) : Prop :=
  Forall (fun captured => captured <> []) (orphans s)
  /\ Uploader.wellFormed (uploader s)
  /\ (forall r, analysis s = Some r ->
                exists fs, fs <> [] /\ r = Uploader.mockAnalysis fs).

(** The prop given to the checklists tab: [analysis?.process]. *)
Definition selectedProcess (s : State) : option string :=
  option_map Uploader.process (analysis s).

(** The checklists the checklists tab displays. *)
Definition checklistsShown (s : State) : list Checklists.ProcessChecklist :=
  ChecklistsView.displayChecklists (selectedProcess s).

(** The sidebar summary, rendered when [analysis] is set: the process, the
    two document counts and [analysis.issues_found.length]. *)
Definition latestAnalysis (s : State) : option (string * nat * nat * nat) :=
  match analysis s with
  | None => None
  | Some a =>
      Some (Uploader.process a, Uploader.documents_uploaded a,
            Uploader.required_documents a,
            length (Uploader.issues_found a))
  end.

End App.

(** ** Sample inputs *)

Module Samples.

Import Uploader.

Definition aoa : File :=
  {| name := "Articles of Association (AoA).docx"; size := 24576%N |}.
Definition moa : File :=
  {| name := "Memorandum of Association (MoA).docx"; size := 18432%N |}.
Definition application : File :=
  {| name := "Incorporation Application Form.DOCX"; size := 9216%N |}.
Definition ubo : File :=
  {| name := "UBO Declaration Form.docx"; size := 7168%N |}.
Definition register : File :=
  {| name := "Register of Members and Directors.docx"; size := 5120%N |}.
Definition scan : File :=
  {| name := "passport-scan.pdf"; size := 102400%N |}.

Definition fourDocuments : list File := [aoa; moa; application; ubo].

(** The component after the user has picked [selected]. *)
Definition picked (selected : list File) : State :=
  run initial [Select (Some selected)].

(** The label dictionary made of the incorporation checklist itself. *)
Definition incorporationLabels : list string :=
  Checklists.requiredChecklist "Company Incorporation".

Definition byLabel : File -> option string :=
  Engine.declaredType incorporationLabels.

Definition weights : Engine.Weights :=
  {| Engine.wChecklist := 2 # 5; Engine.wSeverity := 2 # 5;
     Engine.wCoverage := 1 # 5; Engine.capPerDocument := 100%positive |}.

(** Four of five documents, all rules evaluated, [n] High issues. *)
Definition batch (n : nat) : Engine.Inputs :=
  {| Engine.documentsUploaded := 4; Engine.requiredDocuments := 5;
     Engine.issues := repeat High n;
     Engine.evaluatedRules := 6; Engine.applicableRules := 6 |}.

Definition midnight (k : nat) : string :=
  if (k <? 2)%nat then "2025-08-09" else "2025-08-10".

End Samples.

(** ** The string primitives meet their descriptions *)

Lemma startsWith_spec (s t : string) :
  JS.startsWith s t = true <-> exists rest, s = (t ++ rest)%string.
Proof.
  unfold JS.startsWith. revert s.
  induction t as [|c t IH]; intros s.
  - split; [intros _; now exists s | destruct s; reflexivity].
  - destruct s as [|d s]; simpl.
    + split; [discriminate | intros [rest H]; discriminate].
    + destruct (Ascii.ascii_dec c d) as [->|Hne].
      * rewrite IH. split; intros [rest H]; exists rest.
        -- now rewrite H.
        -- now inversion H.
      * split; [discriminate | intros [rest H]; congruence].
Qed.

Lemma endsWith_unfold (s t : string) :
  JS.endsWith s t =
  if String.eqb s t then true
  else match s with
       | EmptyString => false
       | String _ rest => JS.endsWith rest t
       end.
Proof. destruct s; reflexivity. Qed.

Lemma includes_unfold (s t : string) :
  JS.includes s t =
  if JS.startsWith s t then true
  else match s with
       | EmptyString => false
       | String _ rest => JS.includes rest t
       end.
Proof. destruct s; reflexivity. Qed.

Lemma endsWith_spec (s t : string) :
  JS.endsWith s t = true <-> exists front, s = (front ++ t)%string.
Proof.
  induction s as [|c s IH]; rewrite endsWith_unfold.
  - destruct (String.eqb_spec "" t) as [<-|Hne].
    + split; [intros _; now exists "" | reflexivity].
    + split; [discriminate|].
      intros [[|d front] H]; simpl in H; [congruence | discriminate].
  - destruct (String.eqb_spec (String c s) t) as [<-|Hne].
    + split; [intros _; now exists "" | reflexivity].
    + rewrite IH. split.
      * intros [front ->]. now exists (String c front).
      * intros [[|d front] H]; simpl in H; [congruence|].
        inversion H; subst. now exists front.
Qed.

Lemma includes_spec (s t : string) :
  JS.includes s t = true
  <-> exists before after, s = (before ++ t ++ after)%string.
Proof.
  induction s as [|c s IH]; rewrite includes_unfold.
  - destruct (JS.startsWith "" t) eqn:E.
    + apply startsWith_spec in E. destruct E as [rest E].
      split; [intros _; now exists "", rest | reflexivity].
    + split; [discriminate|].
      intros [[|d before] [after H]]; simpl in H; [|discriminate].
      assert (JS.startsWith "" t = true) by (apply startsWith_spec; eauto).
      congruence.
  - destruct (JS.startsWith (String c s) t) eqn:E.
    + apply startsWith_spec in E. destruct E as [rest E].
      split; [intros _; now exists "", rest | reflexivity].
    + rewrite IH. split.
      * intros (before & after & ->). now exists (String c before), after.
      * intros ([|d before] & after & H); simpl in H.
        -- assert (JS.startsWith (String c s) t = true)
             by (apply startsWith_spec; eauto).
           congruence.
        -- inversion H; subst. now exists before, after.
Qed.

Lemma toLowerCase_app (a b : string) :
  JS.toLowerCase (a ++ b) = (JS.toLowerCase a ++ JS.toLowerCase b)%string.
Proof. induction a as [|c a IH]; simpl; [reflexivity | now rewrite IH]. Qed.

Lemma toLowerCase_split (s a b : string) :
  JS.toLowerCase s = (a ++ b)%string ->
  exists s1 s2,
    s = (s1 ++ s2)%string /\ JS.toLowerCase s1 = a /\ JS.toLowerCase s2 = b.
Proof.
  revert s. induction a as [|c a IH]; intros s H; simpl in H.
  - now exists "", s.
  - destruct s as [|d s]; simpl in H; [discriminate|].
    inversion H as [[Hc Hs]].
    destruct (IH _ Hs) as (s1 & s2 & -> & <- & <-).
    now exists (String d s1), s2.
Qed.

Lemma endsWith_lower_spec (name ext : string) :
  JS.endsWith (JS.toLowerCase name) ext = true <-> endsWithCI name ext.
Proof.
  rewrite endsWith_spec. unfold endsWithCI. split.
  - intros [front H]. apply toLowerCase_split in H.
    destruct H as (s1 & s2 & -> & _ & H2). now exists s1, s2.
  - intros (stem & tail & -> & <-).
    exists (JS.toLowerCase stem). apply toLowerCase_app.
Qed.

Lemma includes_lower_spec (s t : string) :
  JS.includes (JS.toLowerCase s) (JS.toLowerCase t) = true <-> containsCI s t.
Proof.
  rewrite includes_spec. unfold containsCI. split.
  - intros (before & after & H).
    apply toLowerCase_split in H. destruct H as (s1 & s' & -> & _ & H).
    apply toLowerCase_split in H. destruct H as (s2 & s3 & -> & H2 & _).
    now exists s1, s2, s3.
  - intros (before & mid & after & -> & <-).
    exists (JS.toLowerCase before), (JS.toLowerCase after).
    now rewrite !toLowerCase_app.
Qed.

(** ** Lists *)

Lemma filter_shorter {A : Type} (p : A -> bool) (l : list A) :
  length (filter p l) <= length l.
Proof. induction l as [|x l IH]; simpl; [|destruct (p x); simpl]; lia. Qed.

Lemma filter_keeps_all {A : Type} (p : A -> bool) (l : list A) :
  length (filter p l) = length l <-> forallb p l = true.
Proof.
  induction l as [|x l IH]; simpl; [tauto|].
  destruct (p x); simpl.
  - rewrite <- IH. lia.
  - pose proof (filter_shorter p l). split; [lia | discriminate].
Qed.

Lemma filter_all {A : Type} (p : A -> bool) (l : list A) :
  forallb p l = true -> filter p l = l.
Proof.
  induction l as [|x l IH]; simpl; [reflexivity|].
  destruct (p x); simpl; [|discriminate]. intros H. now rewrite IH.
Qed.

Lemma filter_subsequence {A : Type} (p : A -> bool) (l : list A) :
  subsequence (filter p l) l.
Proof.
  induction l as [|x l IH]; simpl; [constructor|].
  destruct (p x); now constructor.
Qed.

Lemma existsb_eqb_In (t : string) (l : list string) :
  existsb (String.eqb t) l = true <-> In t l.
Proof.
  rewrite existsb_exists. split.
  - intros (x & Hin & Heq). apply String.eqb_eq in Heq. now subst.
  - intros Hin. exists t. split; [assumption | apply String.eqb_refl].
Qed.

(** ** The uploader: how a run unfolds *)

Section UploaderRuns.

Import Uploader.

Lemma handleFileUpload_files (targetFiles : option (list File)) (s : State) :
  files (handleFileUpload targetFiles s) =
  let selected := match targetFiles with Some l => l | None => [] end in
  if forallb isDocx selected then selected else files s.
Proof.
  unfold handleFileUpload. cbv zeta.
  set (selected := match targetFiles with Some l => l | None => [] end).
  destruct (forallb isDocx selected) eqn:Hall.
  - pose proof (proj2 (filter_keeps_all isDocx selected) Hall) as Hlen.
    rewrite Hlen, Nat.eqb_refl. simpl. now apply filter_all.
  - destruct (Nat.eqb_spec (length (filter isDocx selected)) (length selected))
      as [Heq|Hne]; simpl; [|reflexivity].
    apply filter_keeps_all in Heq. congruence.
Qed.

(** Running the pending timers [ts] of a state, oldest first. *)
Lemma timers_run (ts : list (list File)) :
  forall s, timers s = ts ->
  Nat.iter (length ts) timeout s =
  {| files := files s;
     isAnalyzing := match ts with [] => isAnalyzing s | _ => false end;
     analysis :=
       fold_left (fun _ captured => Some (mockAnalysis captured)) ts
                 (analysis s);
     timers := [];
     completed := completed s ++ map mockAnalysis ts;
     alerts := alerts s |}.
Proof.
  induction ts as [|captured ts IH]; intros s Hs.
  - destruct s; simpl in *. subst. now rewrite app_nil_r.
  - cbn [length]. rewrite Nat.iter_succ_r.
    assert (Hstep : timeout s =
              {| files := files s; isAnalyzing := false;
                 analysis := Some (mockAnalysis captured);
                 timers := ts;
                 completed := completed s ++ [mockAnalysis captured];
                 alerts := alerts s |})
      by (unfold timeout; now rewrite Hs).
    rewrite Hstep, IH by reflexivity.
    cbn [files isAnalyzing analysis timers completed alerts fold_left map].
    rewrite <- app_assoc. cbn [app].
    now destruct ts.
Qed.

Lemma drain_state (s : State) :
  drain s =
  {| files := files s;
     isAnalyzing := match timers s with [] => isAnalyzing s | _ => false end;
     analysis :=
       fold_left (fun _ captured => Some (mockAnalysis captured)) (timers s)
                 (analysis s);
     timers := [];
     completed := completed s ++ map mockAnalysis (timers s);
     alerts := alerts s |}.
Proof. unfold drain. now apply timers_run. Qed.

(** A run on a non-empty file list ends with the report on exactly the
    files the state held when the handler was called. *)
Lemma runAnalysis_report (s : State) :
  files s <> [] ->
  analysis (runAnalysis s) = Some (mockAnalysis (files s))
  /\ completed (runAnalysis s) =
     completed s ++ map mockAnalysis (timers s) ++ [mockAnalysis (files s)]
  /\ files (runAnalysis s) = files s
  /\ timers (runAnalysis s) = []
  /\ isAnalyzing (runAnalysis s) = false.
Proof.
  intros Hne. unfold runAnalysis. rewrite drain_state.
  unfold analyzeDocuments.
  destruct (files s) as [|f fs] eqn:Hf; [contradiction|].
  cbn [length Nat.eqb files isAnalyzing analysis timers completed alerts].
  rewrite fold_left_app, map_app. cbn [fold_left map].
  repeat split; try reflexivity.
  now destruct (timers s).
Qed.

Lemma analyzeDocuments_empty (s : State) :
  files s = [] -> analyzeDocuments s = s.
Proof. intros H. unfold analyzeDocuments. now rewrite H. Qed.

Lemma analyzeDocuments_wellFormed (s : State) :
  wellFormed s -> wellFormed (analyzeDocuments s).
Proof.
  intros (Ht & Hc & Ha). unfold analyzeDocuments.
  destruct (Nat.eqb_spec (length (files s)) 0) as [_|Hlen];
    [now repeat split|].
  repeat split; simpl; try assumption.
  apply Forall_app. split; [assumption|].
  constructor; [|constructor]. intros E. now rewrite E in Hlen.
Qed.

Lemma timeout_wellFormed (s : State) :
  wellFormed s -> wellFormed (timeout s).
Proof.
  intros H. unfold timeout.
  destruct (timers s) as [|captured rest] eqn:E; [assumption|].
  destruct H as (Ht & Hc & Ha). rewrite E in Ht.
  inversion Ht as [|? ? Hcap Hrest]; subst.
  repeat split; simpl.
  - assumption.
  - apply Forall_app. split; [assumption|].
    constructor; [|constructor]. now exists captured.
  - intros r [= <-]. apply in_or_app. right. now left.
Qed.

Lemma handleFileUpload_wellFormed targetFiles (s : State) :
  wellFormed s -> wellFormed (handleFileUpload targetFiles s).
Proof.
  intros (Ht & Hc & Ha). unfold handleFileUpload. cbv zeta.
  match goal with |- context [if ?b then _ else _] => destruct b end;
    repeat split; simpl; assumption.
Qed.

Lemma reachable_wellFormed (s : State) : reachable s -> wellFormed s.
Proof.
  induction 1 as [|s e _ IH].
  - repeat split; simpl; try constructor. discriminate.
  - destruct e; simpl.
    + now apply handleFileUpload_wellFormed.
    + destruct ((0 <? length (files s))%nat && negb (isAnalyzing s));
        [now apply analyzeDocuments_wellFormed | assumption].
    + now apply timeout_wellFormed.
Qed.

Lemma run_reachable (es : list Event) :
  forall s, reachable s -> reachable (run s es).
Proof.
  induction es as [|e es IH]; intros s Hs; simpl; [assumption|].
  apply IH. now constructor.
Qed.

End UploaderRuns.

(** ** The uploader: properties of an analysis run *)

Section UploaderClaims.

Import Uploader.

(** Clicking the enabled button and letting its timer run is one analysis
    run, when no older timer is pending. *)
Lemma click_then_timer (s : State) :
  timers s = [] -> isAnalyzing s = false ->
  run s [ClickAnalyze; TimerFires] = runAnalysis s.
Proof.
  intros Ht Hb. unfold run, runAnalysis, drain. cbn [fold_left step].
  rewrite Hb. unfold analyzeDocuments.
  destruct (files s) as [|f fs] eqn:Hf;
    cbn [length Nat.ltb Nat.leb Nat.eqb andb negb].
  - rewrite Ht. cbn [length Nat.iter]. unfold timeout. now rewrite Ht.
  - cbn [timers]. rewrite Ht. reflexivity.
Qed.

Lemma missing_skip (t : string) (rest types : list string) :
  In t types -> Engine.missing (t :: rest) types = Engine.missing rest types.
Proof.
  intros H. apply existsb_eqb_In in H. unfold Engine.missing. simpl.
  now rewrite H.
Qed.

Lemma missing_keep (t : string) (rest types : list string) :
  ~ In t types ->
  Engine.missing (t :: rest) types = t :: Engine.missing rest types.
Proof.
  intros H. unfold Engine.missing. simpl.
  destruct (existsb (String.eqb t) types) eqn:E; [|reflexivity].
  apply existsb_eqb_In in E. contradiction.
Qed.

Lemma incorporation_checklist :
  Checklists.requiredChecklist "Company Incorporation" =
  [ "Articles of Association (AoA)"; "Memorandum of Association (MoA)";
    "Incorporation Application Form"; "UBO Declaration Form";
    registerOfMembers ].
Proof. reflexivity. Qed.

Example required_documents_is_checklist_length (fs : list File) :
  required_documents (mockAnalysis fs)
  = length (Checklists.requiredChecklist (process (mockAnalysis fs))).
Proof. reflexivity. Qed.

(** C1 (as amended): for every non-empty uploaded set the report's
    missing_documents list is ["Register of Members and Directors"] when
    fewer than five files were uploaded and empty otherwise. It equals the
    required checklist of the reported process minus the uploaded document
    types, in checklist order, whenever fewer than five files were uploaded
    and their types are exactly the other checklist entries, or at least
    five files were uploaded and their types cover the checklist. *)
Theorem missing_documents_by_count
  (typeOf : File -> option string) (s : State) (Hfiles : files s <> []) :
  exists r,
    analysis (runAnalysis s) = Some r
    /\ missing_documents r =
       (if (length (files s) <? 5)%nat then [registerOfMembers] else [])
    /\ (let types := Engine.uploadedTypes typeOf (files s) in
        let checklist := Checklists.requiredChecklist (process r) in
        (length (files s) < 5
         /\ ~ In registerOfMembers types
         /\ forall t, In t checklist -> t <> registerOfMembers -> In t types)
        \/ (5 <= length (files s) /\ forall t, In t checklist -> In t types)
        -> missing_documents r = Engine.missing checklist types).
Proof.
  exists (mockAnalysis (files s)).
  split; [now apply runAnalysis_report|].
  split; [reflexivity|].
  cbv zeta. cbn [process mockAnalysis missing_documents].
  rewrite incorporation_checklist.
  set (types := Engine.uploadedTypes typeOf (files s)).
  intros [(Hlt & Hreg & Hothers) | (Hge & Hall)].
  - apply Nat.ltb_lt in Hlt. rewrite Hlt.
    rewrite !missing_skip
      by (apply Hothers; [simpl; tauto | unfold registerOfMembers; discriminate]).
    now rewrite missing_keep.
  - apply Nat.ltb_ge in Hge. rewrite Hge.
    now rewrite !missing_skip by (apply Hall; simpl; tauto).
Qed.

Lemma missing_documents_by_count_witness :
  exists r,
    analysis (runAnalysis (Samples.picked Samples.fourDocuments)) = Some r
    /\ missing_documents r = [registerOfMembers]
    /\ missing_documents r =
       Engine.missing (Checklists.requiredChecklist (process r))
         (Engine.uploadedTypes Samples.byLabel Samples.fourDocuments).
Proof.
  destruct (missing_documents_by_count Samples.byLabel
              (Samples.picked Samples.fourDocuments))
    as (r & Hr & Hm & Hagree); [discriminate|].
  exists r. split; [exact Hr|]. split; [exact Hm|].
  apply Hagree. left.
  replace (process r) with "Company Incorporation"
    by (injection Hr as <-; reflexivity).
  change (files (Samples.picked Samples.fourDocuments))
    with Samples.fourDocuments.
  replace (Engine.uploadedTypes Samples.byLabel Samples.fourDocuments)
    with [ "Articles of Association (AoA)"; "Memorandum of Association (MoA)";
           "Incorporation Application Form"; "UBO Declaration Form" ]
    by (vm_compute; reflexivity).
  rewrite incorporation_checklist. unfold registerOfMembers.
  split; [simpl; lia|]. split.
  - simpl. intros H. repeat (destruct H as [H|H]; [discriminate|]). exact H.
  - simpl. intros t H Ht. intuition congruence.
Defined.

(** C1 (as stated) fails: after one file is uploaded the reported list has
    one entry, while the incorporation checklist minus the uploaded types
    has at least four, whatever type the file is given. *)
Lemma missing_documents_not_checklist_difference :
  exists r,
    analysis (runAnalysis (Samples.picked [Samples.aoa])) = Some r
    /\ forall typeOf : File -> option string,
         missing_documents r <>
         Engine.missing (Checklists.requiredChecklist (process r))
           (Engine.uploadedTypes typeOf (files (Samples.picked [Samples.aoa]))).
Proof.
  exists (mockAnalysis [Samples.aoa]). split; [reflexivity|].
  intros typeOf.
  change (files (Samples.picked [Samples.aoa])) with [Samples.aoa].
  cbn [process mockAnalysis missing_documents length Nat.ltb Nat.leb].
  rewrite incorporation_checklist.
  unfold Engine.uploadedTypes. cbn [flat_map app].
  destruct (typeOf Samples.aoa) as [t|]; cbn [app].
  - destruct (String.eqb_spec "Articles of Association (AoA)" t) as [<-|Hne].
    + rewrite missing_skip by (now left).
      rewrite missing_keep by (intros [H|[]]; discriminate).
      discriminate.
    + rewrite missing_keep by (intros [H|[]]; congruence).
      discriminate.
  - rewrite missing_keep by (intros []). discriminate.
Qed.

(** C2: for a batch of exactly four uploaded files the produced analysis has
    documents_uploaded = 4, required_documents = 5 and
    missing_documents = ["Register of Members and Directors"]; it is the
    value stored by [setAnalysis] and the last one handed to the completion
    callback. *)
Theorem four_of_five_report (s : State) (Hfour : length (files s) = 4) :
  exists r,
    analysis (runAnalysis s) = Some r
    /\ last (completed (runAnalysis s)) r = r
    /\ In r (completed (runAnalysis s))
    /\ process r = "Company Incorporation"
    /\ documents_uploaded r = 4
    /\ required_documents r = 5
    /\ missing_documents r = [registerOfMembers].
Proof.
  assert (Hne : files s <> []) by (intros E; now rewrite E in Hfour).
  destruct (runAnalysis_report s Hne) as (Ha & Hc & _).
  exists (mockAnalysis (files s)).
  split; [exact Ha|]. rewrite Hc, app_assoc.
  split; [apply last_last|].
  split; [apply in_or_app; right; now left|].
  cbn [process documents_uploaded required_documents missing_documents
       mockAnalysis].
  now rewrite Hfour.
Qed.

Lemma four_of_five_report_witness :
  exists r,
    analysis (runAnalysis (Samples.picked Samples.fourDocuments)) = Some r
    /\ last (completed (runAnalysis (Samples.picked Samples.fourDocuments))) r = r
    /\ In r (completed (runAnalysis (Samples.picked Samples.fourDocuments)))
    /\ process r = "Company Incorporation"
    /\ documents_uploaded r = 4
    /\ required_documents r = 5
    /\ missing_documents r = [registerOfMembers].
Proof.
  apply (four_of_five_report (Samples.picked Samples.fourDocuments)).
  reflexivity.
Defined.

(** C3 (as amended): for every non-empty uploaded set with at least five
    files, or with no document of type "Register of Members and Directors",
    the report's missing_documents list contains no document type that is
    present in the uploaded set. *)
Theorem missing_avoids_uploaded
  (typeOf : File -> option string) (s : State) (Hfiles : files s <> [])
  (Hregister : 5 <= length (files s)
               \/ ~ In registerOfMembers
                       (Engine.uploadedTypes typeOf (files s))) :
  exists r,
    analysis (runAnalysis s) = Some r
    /\ forall t, In t (missing_documents r) ->
                 ~ In t (Engine.uploadedTypes typeOf (files s)).
Proof.
  exists (mockAnalysis (files s)).
  split; [now apply runAnalysis_report|].
  cbn [missing_documents mockAnalysis]. intros t Ht.
  destruct (Nat.ltb_spec (length (files s)) 5) as [Hlt|Hge].
  - destruct Hregister as [Hge|Habsent]; [lia|].
    destruct Ht as [<-|[]]. exact Habsent.
  - destruct Ht.
Qed.

Lemma missing_avoids_uploaded_witness :
  exists r,
    analysis (runAnalysis (Samples.picked Samples.fourDocuments)) = Some r
    /\ forall t, In t (missing_documents r) ->
                 ~ In t (Engine.uploadedTypes Samples.byLabel
                           (files (Samples.picked Samples.fourDocuments))).
Proof.
  apply (missing_avoids_uploaded Samples.byLabel
           (Samples.picked Samples.fourDocuments)).
  - discriminate.
  - right. vm_compute.
    intros H. repeat (destruct H as [H|H]; [discriminate|]). exact H.
Defined.

(** C3 (as stated) fails: when the only uploaded file is the register of
    members and directors, the report lists that very type as missing. *)
Lemma missing_lists_uploaded_register :
  exists r,
    analysis (run Uploader.initial
                [Select (Some [Samples.register]); ClickAnalyze; TimerFires])
    = Some r
    /\ In registerOfMembers (missing_documents r)
    /\ In registerOfMembers
          (Engine.uploadedTypes Samples.byLabel [Samples.register]).
Proof.
  exists (mockAnalysis [Samples.register]).
  split; [reflexivity|]. split; [now left|].
  vm_compute. now left.
Qed.

(** C5 (as amended): every produced analysis report, whether stored by the
    component or handed to the completion callback, carries exactly the
    properties process, documents_uploaded, required_documents,
    missing_documents and issues_found. It carries no confidence score: its
    only numbers are the count of uploaded files and the constant 5. *)
Theorem report_carries_no_confidence
  (s : State) (r : DocumentAnalysis) (Hreach : reachable s)
  (Hproduced : analysis s = Some r \/ In r (completed s)) :
  JS.keys (toObject r) =
    [ "process"; "documents_uploaded"; "required_documents";
      "missing_documents"; "issues_found" ]
  /\ confidenceScore (toObject r) = None
  /\ exists fs : list File,
       fs <> []
       /\ forall k q,
            JS.get k (toObject r) = Some (JS.Num q) ->
            (k = "documents_uploaded" /\ q = inject_Z (Z.of_nat (length fs)))
            \/ (k = "required_documents" /\ q = inject_Z 5).
Proof.
  split; [reflexivity|]. split; [reflexivity|].
  destruct (reachable_wellFormed s Hreach) as (_ & Hc & Ha).
  assert (Hin : In r (completed s))
    by (destruct Hproduced as [H|H]; [now apply Ha | exact H]).
  rewrite Forall_forall in Hc. destruct (Hc r Hin) as (fs & Hfs & ->).
  exists fs. split; [exact Hfs|].
  intros k q. unfold toObject. cbn [JS.get].
  destruct (String.eqb_spec k "process"); [discriminate|].
  destruct (String.eqb_spec k "documents_uploaded") as [->|_];
    [intros [= <-]; left; now split|].
  destruct (String.eqb_spec k "required_documents") as [->|_];
    [intros [= <-]; right; now split|].
  destruct (String.eqb_spec k "missing_documents"); [discriminate|].
  destruct (String.eqb_spec k "issues_found"); discriminate.
Qed.

Lemma report_carries_no_confidence_witness :
  JS.keys (toObject (mockAnalysis Samples.fourDocuments)) =
    [ "process"; "documents_uploaded"; "required_documents";
      "missing_documents"; "issues_found" ]
  /\ confidenceScore (toObject (mockAnalysis Samples.fourDocuments)) = None
  /\ exists fs : list File,
       fs <> []
       /\ forall k q,
            JS.get k (toObject (mockAnalysis Samples.fourDocuments))
            = Some (JS.Num q) ->
            (k = "documents_uploaded" /\ q = inject_Z (Z.of_nat (length fs)))
            \/ (k = "required_documents" /\ q = inject_Z 5).
Proof.
  apply (report_carries_no_confidence
           (run Uploader.initial
              [Select (Some Samples.fourDocuments); ClickAnalyze; TimerFires])).
  - apply run_reachable. constructor.
  - left. reflexivity.
Defined.

(** C5 (as stated) fails: the report produced for three uploaded files has
    no confidence_score property, and none of its properties is a number
    between 0 and 1. *)
Lemma three_file_report_without_score :
  exists r,
    analysis (run Uploader.initial
                [ Select (Some [Samples.aoa; Samples.moa; Samples.ubo]);
                  ClickAnalyze; TimerFires ]) = Some r
    /\ confidenceScore (toObject r) = None
    /\ forall k q, JS.get k (toObject r) = Some (JS.Num q) ->
                   ~ (0 <= q /\ q <= 1)%Q.
Proof.
  exists (mockAnalysis [Samples.aoa; Samples.moa; Samples.ubo]).
  split; [reflexivity|]. split; [reflexivity|].
  intros k q. unfold toObject. cbn [JS.get].
  destruct (String.eqb_spec k "process"); [discriminate|].
  destruct (String.eqb_spec k "documents_uploaded") as [->|_].
  { intros [= <-] [_ H]. revert H. unfold Qle. simpl. lia. }
  destruct (String.eqb_spec k "required_documents") as [->|_].
  { intros [= <-] [_ H]. revert H. unfold Qle. simpl. lia. }
  destruct (String.eqb_spec k "missing_documents"); [discriminate|].
  destruct (String.eqb_spec k "issues_found"); discriminate.
Qed.

(** C6: two analysis runs on the same non-empty uploaded set yield identical
    issues, indeed identical reports, whatever else the component held when
    each run started. *)
Theorem issues_deterministic
  (s1 s2 : State) (Hsame : files s1 = files s2) (Hfiles : files s1 <> []) :
  exists r1 r2,
    analysis (runAnalysis s1) = Some r1
    /\ analysis (runAnalysis s2) = Some r2
    /\ issues_found r1 = issues_found r2
    /\ r1 = r2.
Proof.
  exists (mockAnalysis (files s1)), (mockAnalysis (files s2)).
  split; [now apply runAnalysis_report|].
  split; [apply runAnalysis_report; congruence|].
  now rewrite Hsame.
Qed.

Lemma issues_deterministic_witness :
  exists r1 r2,
    analysis (runAnalysis (Samples.picked Samples.fourDocuments)) = Some r1
    /\ analysis
         (runAnalysis
            (run (runAnalysis (Samples.picked Samples.fourDocuments))
                 [Select (Some [Samples.scan])])) = Some r2
    /\ issues_found r1 = issues_found r2
    /\ r1 = r2.
Proof.
  apply (issues_deterministic
           (Samples.picked Samples.fourDocuments)
           (run (runAnalysis (Samples.picked Samples.fourDocuments))
                [Select (Some [Samples.scan])])).
  - reflexivity.
  - discriminate.
Defined.

(** The issues do not even depend on the uploaded files. *)
Lemma issues_constant (fs1 fs2 : list File) :
  issues_found (mockAnalysis fs1) = issues_found (mockAnalysis fs2).
Proof. reflexivity. Qed.

(** C7: with an empty file list the analysis aborts without a report: the
    handler returns the state as it was, so the stored analysis result is
    unchanged, nothing is handed to the completion callback and no timer is
    scheduled that could do so later. *)
Theorem empty_batch_aborts (s : State) (Hempty : files s = []) :
  analyzeDocuments s = s
  /\ step s ClickAnalyze = s
  /\ analysis (analyzeDocuments s) = analysis s
  /\ completed (analyzeDocuments s) = completed s
  /\ timers (analyzeDocuments s) = timers s
  /\ isAnalyzing (analyzeDocuments s) = isAnalyzing s
  /\ (timers s = [] -> runAnalysis s = s).
Proof.
  pose proof (analyzeDocuments_empty s Hempty) as H.
  rewrite H. repeat split.
  - simpl. now rewrite Hempty.
  - intros Ht. unfold runAnalysis, drain. now rewrite H, Ht.
Qed.

Lemma empty_batch_aborts_witness :
  analyzeDocuments Uploader.initial = Uploader.initial
  /\ step Uploader.initial ClickAnalyze = Uploader.initial
  /\ analysis (analyzeDocuments Uploader.initial) = analysis Uploader.initial
  /\ completed (analyzeDocuments Uploader.initial)
     = completed Uploader.initial
  /\ timers (analyzeDocuments Uploader.initial) = timers Uploader.initial
  /\ isAnalyzing (analyzeDocuments Uploader.initial)
     = isAnalyzing Uploader.initial
  /\ (timers Uploader.initial = [] ->
      runAnalysis Uploader.initial = Uploader.initial).
Proof. apply (empty_batch_aborts Uploader.initial). reflexivity. Defined.

(** C8: file-upload acceptance is all-or-nothing. If some selected file name
    does not end in ".docx" (letter case apart) the stored file list is left
    unchanged; otherwise it is replaced by exactly the selected files in
    their given order. *)
Theorem upload_all_or_nothing (selected : list File) (s : State) :
  ((exists f, In f selected /\ ~ endsWithCI (name f) ".docx") ->
   files (handleFileUpload (Some selected) s) = files s)
  /\ ((forall f, In f selected -> endsWithCI (name f) ".docx") ->
      files (handleFileUpload (Some selected) s) = selected).
Proof.
  rewrite handleFileUpload_files. cbv zeta. split.
  - intros (f & Hin & Hbad).
    destruct (forallb isDocx selected) eqn:Hall; [|reflexivity].
    rewrite forallb_forall in Hall. specialize (Hall f Hin).
    apply endsWith_lower_spec in Hall. contradiction.
  - intros Hgood.
    assert (Hall : forallb isDocx selected = true).
    { apply forallb_forall. intros f Hin.
      apply endsWith_lower_spec. now apply Hgood. }
    now rewrite Hall.
Qed.

Lemma isDocx_spec (f : File) :
  isDocx f = true <-> endsWithCI (name f) ".docx".
Proof. apply endsWith_lower_spec. Qed.

Lemma upload_all_or_nothing_witness :
  files (handleFileUpload (Some [Samples.aoa; Samples.scan])
           (Samples.picked Samples.fourDocuments))
  = Samples.fourDocuments
  /\ files (handleFileUpload (Some [Samples.application; Samples.register])
              (Samples.picked Samples.fourDocuments))
     = [Samples.application; Samples.register].
Proof.
  split.
  - apply (proj1 (upload_all_or_nothing [Samples.aoa; Samples.scan]
                    (Samples.picked Samples.fourDocuments))).
    exists Samples.scan. split; [simpl; tauto|].
    intros H. apply isDocx_spec in H. discriminate.
  - apply (proj2 (upload_all_or_nothing
                    [Samples.application; Samples.register]
                    (Samples.picked Samples.fourDocuments))).
    intros f [<-|[<-|[]]]; apply isDocx_spec; reflexivity.
Defined.

End UploaderClaims.

(** ** The compliance rule filter *)

Section ComplianceClaims.

Import Compliance.

Lemma keeps_spec (s : State) (r : ComplianceRule) :
  keeps s r = true
  <-> (selectedCategory s = "All" \/ category r = selectedCategory s)
      /\ (containsCI (rule r) (searchTerm s)
          \/ containsCI (description r) (searchTerm s)).
Proof.
  unfold keeps. cbv zeta.
  rewrite andb_true_iff, !orb_true_iff, !String.eqb_eq, !includes_lower_spec.
  tauto.
Qed.

Lemma includes_empty (s : string) : JS.includes s "" = true.
Proof. apply includes_spec. now exists "", s. Qed.

Lemma rule_ids_distinct : NoDup (map id ADGM_COMPLIANCE_RULES).
Proof.
  repeat constructor; simpl; intuition discriminate.
Qed.

(** C9: for every selected category and search term the displayed rules are
    exactly the rules of the fixed table whose category equals the selection
    (or the selection is "All") and whose rule name or description contains
    the search term, letter case apart, in the order of the table; with
    category "All" and an empty search term all six rules are displayed. *)
Theorem filteredRules_exact (s : State) :
  (forall r,
     In r (filteredRules s)
     <-> In r ADGM_COMPLIANCE_RULES
         /\ (selectedCategory s = "All" \/ category r = selectedCategory s)
         /\ (containsCI (rule r) (searchTerm s)
             \/ containsCI (description r) (searchTerm s)))
  /\ subsequence (filteredRules s) ADGM_COMPLIANCE_RULES
  /\ (selectedCategory s = "All" -> searchTerm s = "" ->
      filteredRules s = ADGM_COMPLIANCE_RULES
      /\ length (filteredRules s) = 6).
Proof.
  split; [|split].
  - intros r. unfold filteredRules. rewrite filter_In, keeps_spec. tauto.
  - apply filter_subsequence.
  - intros Hcat Hterm.
    assert (Hall : filteredRules s = ADGM_COMPLIANCE_RULES).
    { apply filter_all. apply forallb_forall. intros r _.
      unfold keeps. cbv zeta. rewrite Hcat, Hterm.
      cbn [JS.toLowerCase]. now rewrite includes_empty. }
    now rewrite Hall.
Qed.

Lemma filteredRules_exact_witness :
  filteredRules Compliance.initial = ADGM_COMPLIANCE_RULES
  /\ length (filteredRules Compliance.initial) = 6.
Proof.
  apply (proj2 (proj2 (filteredRules_exact Compliance.initial)));
    reflexivity.
Defined.

(** Two runs of the filter on concrete selections. *)
Example filter_by_category :
  map id (filteredRules (setSelectedCategory "AML/CFT" Compliance.initial))
  = ["COMP-003"].
Proof. reflexivity. Qed.

Example filter_by_term :
  map id (filteredRules (setSearchTerm "ADGM" Compliance.initial))
  = ["COMP-001"; "COMP-005"].
Proof. vm_compute. reflexivity. Qed.

End ComplianceClaims.

(** ** Reindexing the knowledge sources *)

Section RAGClaims.

Import RAG.

Lemma reindexed_pointwise (today : nat -> string) (prev : list KnowledgeSource) :
  forall k, Forall2 reindexedFrom prev (reindexed today k prev).
Proof.
  induction prev as [|source rest IH]; intros k; simpl; constructor.
  - now repeat split.
  - apply IH.
Qed.

Lemma reindexed_ids (today : nat -> string) (prev : list KnowledgeSource) :
  forall k, map id (reindexed today k prev) = map id prev.
Proof.
  induction prev as [|source rest IH]; intros k; simpl;
    [reflexivity | now rewrite IH].
Qed.

Lemma reindexed_dates (today : nat -> string) (prev : list KnowledgeSource) :
  forall k n source,
    nth_error (reindexed today k prev) n = Some source ->
    lastUpdated source = today (k + n).
Proof.
  induction prev as [|x rest IH]; intros k n source H.
  - destruct n; discriminate.
  - destruct n as [|n]; simpl in H.
    + injection H as <-. simpl. now rewrite Nat.add_0_r.
    + apply IH in H. rewrite H. f_equal. lia.
Qed.

Lemma reindexed_status (today : nat -> string) (prev : list KnowledgeSource) :
  forall k, Forall (fun source => status source = indexed)
                   (reindexed today k prev).
Proof.
  induction prev as [|x rest IH]; intros k; simpl; constructor;
    [reflexivity | apply IH].
Qed.

(** C10: reindexing modifies only the status and lastUpdated fields of each
    knowledge source: position by position the id, title, type, url and
    description are what they were, the sources are the same ones in the
    same order, every status is [indexed] afterwards, and the search query
    and type selection of the component are untouched. *)
Theorem reindex_frame (today : nat -> string) (s : State) :
  Forall2 reindexedFrom (sources s) (sources (reindex today s))
  /\ length (sources (reindex today s)) = length (sources s)
  /\ map id (sources (reindex today s)) = map id (sources s)
  /\ Forall (fun source => status source = indexed)
            (sources (reindex today s))
  /\ searchQuery (reindex today s) = searchQuery s
  /\ selectedType (reindex today s) = selectedType s
  /\ isIndexing (reindex today s) = false.
Proof.
  unfold reindex, timeout, handleReindex. cbn [timers sources].
  split; [apply reindexed_pointwise|].
  split; [rewrite <- (length_map id), reindexed_ids; apply length_map|].
  split; [apply reindexed_ids|].
  split; [apply reindexed_status|].
  now repeat split.
Qed.

(** The built-in sources after a reindex whose clock passes midnight
    between the second and the third source. *)
Example reindex_builtin_sources :
  map (fun source => (id source, status source, lastUpdated source))
      (sources (reindex Samples.midnight RAG.initial))
  = [ ("adgm-companies-reg-2020", indexed, "2025-08-09");
      ("adgm-aml-rules-2019", indexed, "2025-08-09");
      ("fsra-licensing-guide", indexed, "2025-08-10");
      ("incorporation-forms", indexed, "2025-08-10");
      ("employment-regulations", indexed, "2025-08-10") ].
Proof. reflexivity. Qed.

End RAGClaims.

(** ** The confidence scorer of the specification *)

Section ScorerClaims.

Import Engine.
#[local] Open Scope Q_scope.

Lemma ofNat_le (a b : nat) : (a <= b)%nat -> ofNat a <= ofNat b.
Proof. intros H. unfold ofNat. rewrite <- Zle_Qle. lia. Qed.

Lemma ofNat_nonneg (a : nat) : 0 <= ofNat a.
Proof. apply (ofNat_le 0 a). lia. Qed.

Lemma severityCap_nonneg (w : Weights) (i : Inputs) : 0 <= severityCap w i.
Proof.
  unfold severityCap. apply Qmult_le_0_compat; [|apply ofNat_nonneg].
  unfold Qle. simpl. lia.
Qed.

Lemma Qmult_le_left (x y z : Q) : x <= y -> 0 <= z -> z * x <= z * y.
Proof.
  intros Hxy Hz. rewrite (Qmult_comm z x), (Qmult_comm z y).
  now apply Qmult_le_compat_r.
Qed.

Lemma inverseSeverityLoad_addHigh (w : Weights) (i : Inputs) :
  inverseSeverityLoad w (addHigh i) <= inverseSeverityLoad w i.
Proof.
  unfold inverseSeverityLoad, Qminus.
  apply Qplus_le_compat; [apply Qle_refl|]. apply Qopp_le_compat.
  apply Q.min_le_compat_l. unfold Qdiv.
  change (severityCap w (addHigh i)) with (severityCap w i).
  apply Qmult_le_compat_r.
  - apply ofNat_le. simpl. lia.
  - apply Qinv_le_0_compat, severityCap_nonneg.
Qed.

Lemma rawScore_addHigh (w : Weights) (i : Inputs) :
  0 <= wSeverity w -> rawScore w (addHigh i) <= rawScore w i.
Proof.
  intros Hw. unfold rawScore.
  change (completeness (addHigh i)) with (completeness i).
  change (ruleCoverage (addHigh i)) with (ruleCoverage i).
  apply Qplus_le_compat; [|apply Qle_refl].
  apply Qplus_le_compat; [apply Qle_refl|].
  apply Qmult_le_left; [apply inverseSeverityLoad_addHigh | exact Hw].
Qed.

Lemma clamp01_monotone (p q : Q) : p <= q -> clamp01 p <= clamp01 q.
Proof.
  intros H. unfold clamp01.
  now apply Q.max_le_compat_l, Q.min_le_compat_l.
Qed.

Lemma clamp01_bounds (q : Q) : 0 <= clamp01 q /\ clamp01 q <= 1.
Proof.
  unfold clamp01. split; [apply Q.le_max_l|].
  apply Q.max_lub; [discriminate | apply Q.le_min_l].
Qed.

Lemma hundredths_monotone (p q : Q) :
  p <= q -> (hundredths p <= hundredths q)%Z.
Proof.
  intros H. unfold hundredths. apply Qfloor_resp_le.
  apply Qplus_le_compat; [|apply Qle_refl].
  apply Qmult_le_compat_r; [exact H | discriminate].
Qed.

Lemma round2_monotone (p q : Q) : p <= q -> round2 p <= round2 q.
Proof.
  intros H. apply hundredths_monotone in H.
  unfold round2, Qle. simpl. lia.
Qed.

Lemma hundredths_clamped (q : Q) :
  (0 <= hundredths (clamp01 q) <= 100)%Z.
Proof.
  destruct (clamp01_bounds q) as [Hlo Hhi].
  apply hundredths_monotone in Hlo, Hhi.
  change (hundredths 0) with 0%Z in Hlo.
  change (hundredths 1) with 100%Z in Hhi.
  lia.
Qed.

Lemma score_addHigh (w : Weights) (i : Inputs) :
  0 <= wSeverity w -> score w (addHigh i) <= score w i.
Proof.
  intros Hw. unfold score.
  now apply round2_monotone, clamp01_monotone, rawScore_addHigh.
Qed.

Lemma highCount_addHighs (n : nat) (i : Inputs) :
  highCount (issues (addHighs n i)) = (n + highCount (issues i))%nat.
Proof.
  induction n as [|n IH]; [reflexivity|].
  change (addHighs (S n) i) with (addHigh (addHighs n i)).
  change (highCount (issues (addHigh (addHighs n i))))
    with (S (highCount (issues (addHighs n i)))).
  now rewrite IH.
Qed.

(** C4 (as amended), on the scorer modelled from section 4.6 of the
    specification: holding every other input fixed, the confidence score
    is monotonically non-increasing as the count of High-severity issues
    increases, for every configuration whose severity weight is not
    negative. *)
Theorem score_non_increasing
  (w : Weights) (i : Inputs) (n m : nat)
  (Hweight : 0 <= wSeverity w) (Hmore : (n <= m)%nat) :
  score w (addHighs m i) <= score w (addHighs n i)
  /\ highCount (issues (addHighs n i)) = (n + highCount (issues i))%nat
  /\ highCount (issues (addHighs m i)) = (m + highCount (issues i))%nat.
Proof.
  split; [|split; apply highCount_addHighs].
  induction Hmore as [|m Hmore IH]; [apply Qle_refl|].
  eapply Qle_trans; [|exact IH].
  change (addHighs (S m) i) with (addHigh (addHighs m i)).
  now apply score_addHigh.
Qed.

Lemma score_non_increasing_witness :
  score Samples.weights (addHighs 7 (Samples.batch 0))
  <= score Samples.weights (addHighs 2 (Samples.batch 0))
  /\ highCount (issues (addHighs 2 (Samples.batch 0))) = 2%nat
  /\ highCount (issues (addHighs 7 (Samples.batch 0))) = 7%nat.
Proof.
  apply (score_non_increasing Samples.weights (Samples.batch 0) 2 7).
  - discriminate.
  - lia.
Defined.

(** C4 (as stated) fails: with four of five documents, every rule evaluated
    and a cap of 100 per document, the first High-severity issue lowers the
    weighted sum from 0.92 to 0.917, and both are reported as 0.92. *)
Lemma score_not_strictly_decreasing :
  score Samples.weights (Samples.batch 0) = 92 # 100
  /\ score Samples.weights (addHigh (Samples.batch 0)) = 92 # 100
  /\ highCount (issues (addHigh (Samples.batch 0)))
     = S (highCount (issues (Samples.batch 0)))
  /\ ~ (score Samples.weights (addHigh (Samples.batch 0))
        < score Samples.weights (Samples.batch 0)).
Proof.
  assert (H0 : score Samples.weights (Samples.batch 0) = 92 # 100)
    by (vm_compute; reflexivity).
  assert (H1 : score Samples.weights (addHigh (Samples.batch 0)) = 92 # 100)
    by (vm_compute; reflexivity).
  rewrite H0, H1. repeat split. apply Qlt_irrefl.
Qed.

(** No configuration escapes: a score clamped to [0,1] and rounded to two
    decimals takes at most 101 values, so it cannot go down with each of
    101 successive High-severity issues. *)
Lemma score_never_strict (w : Weights) (i : Inputs) :
  ~ (forall n, (n <= 100)%nat ->
               score w (addHighs (S n) i) < score w (addHighs n i)).
Proof.
  intros Hstrict.
  set (h := fun n => hundredths (clamp01 (rawScore w (addHighs n i)))).
  assert (Hstep : forall n, (n <= 100)%nat -> (h (S n) < h n)%Z).
  { intros n Hn. specialize (Hstrict n Hn).
    unfold score, round2, Qlt in Hstrict. simpl in Hstrict.
    unfold h. change (addHighs (S n) i) with (addHigh (addHighs n i)).
    lia. }
  assert (Hdown : forall n, (n <= 101)%nat ->
                            (h n <= h 0%nat - Z.of_nat n)%Z).
  { induction n as [|n IH]; intros Hn; [lia|].
    specialize (Hstep n ltac:(lia)). specialize (IH ltac:(lia)). lia. }
  specialize (Hdown 101%nat (le_n _)).
  pose proof (hundredths_clamped (rawScore w (addHighs 101 i))) as Hlow.
  pose proof (hundredths_clamped (rawScore w (addHighs 0 i))) as Hhigh.
  fold (h 101%nat) in Hlow. fold (h 0%nat) in Hhigh. lia.
Qed.

End ScorerClaims.

(** ** More on the uploader *)

Section UploaderMore.

Import Uploader.
Import UploaderView.

Lemma filter_Forall {A : Type} (p : A -> bool) (l : list A) :
  Forall (fun x => p x = true) (filter p l).
Proof.
  apply Forall_forall. intros x Hx. now apply filter_In in Hx.
Qed.

Lemma filter_docxOnly (l : list File) : docxOnly (filter isDocx l).
Proof.
  unfold docxOnly. eapply Forall_impl; [|apply filter_Forall].
  intros f H. now apply endsWith_lower_spec.
Qed.

(** X1: whatever the user does, the stored file list and the file list
    captured by every pending analysis timer hold only files whose name ends
    in ".docx", letter case apart. *)
Theorem stored_files_are_docx (s : State) (Hreach : reachable s) :
  docxOnly (files s) /\ Forall docxOnly (timers s).
Proof.
  induction Hreach as [|s e _ [IHf IHt]].
  - split; constructor.
  - destruct e; simpl.
    + unfold handleFileUpload. cbv zeta.
      match goal with |- context [if ?b then _ else _] => destruct b end;
        simpl; split; try assumption. apply filter_docxOnly.
    + destruct ((0 <? length (files s))%nat && negb (isAnalyzing s));
        [|now split].
      unfold analyzeDocuments.
      destruct (length (files s) =? 0)%nat; [now split|]. simpl.
      split; [assumption|]. apply Forall_app. split; [assumption|].
      now constructor.
    + unfold timeout. destruct (timers s) as [|captured rest] eqn:E;
        [rewrite E; now split|]. simpl.
      split; [assumption|]. now inversion IHt.
Qed.

Lemma stored_files_are_docx_witness :
  docxOnly (files (run Uploader.initial
                     [ Select (Some Samples.fourDocuments); ClickAnalyze;
                       Select (Some [Samples.scan]) ]))
  /\ Forall docxOnly
       (timers (run Uploader.initial
                  [ Select (Some Samples.fourDocuments); ClickAnalyze;
                    Select (Some [Samples.scan]) ])).
Proof.
  apply (stored_files_are_docx
           (run Uploader.initial
              [ Select (Some Samples.fourDocuments); ClickAnalyze;
                Select (Some [Samples.scan]) ])).
  apply run_reachable. constructor.
Defined.

(** X2: [handleFileUpload] never touches the analysis state, and it shows
    its alert exactly when it rejects: either one alert is added, the file
    list is kept and some selected name does not end in ".docx", or no alert
    is added, the file list becomes the selection and every selected name
    ends in ".docx". *)
Theorem upload_alerts_on_rejection
  (targetFiles : option (list File)) (s : State) :
  let selected := match targetFiles with Some l => l | None => [] end in
  let s' := handleFileUpload targetFiles s in
  isAnalyzing s' = isAnalyzing s
  /\ analysis s' = analysis s
  /\ timers s' = timers s
  /\ completed s' = completed s
  /\ ((alerts s' = alerts s ++ ["Please upload only .docx files"]
       /\ files s' = files s
       /\ exists f, In f selected /\ ~ endsWithCI (name f) ".docx")
      \/ (alerts s' = alerts s
          /\ files s' = selected
          /\ forall f, In f selected -> endsWithCI (name f) ".docx")).
Proof.
  cbv zeta. unfold handleFileUpload. cbv zeta.
  set (selected := match targetFiles with Some l => l | None => [] end).
  destruct (Nat.eqb_spec (length (filter isDocx selected)) (length selected))
    as [Heq|Hne]; simpl; repeat (split; [reflexivity|]).
  - right. apply filter_keeps_all in Heq.
    split; [reflexivity|]. split; [now apply filter_all|].
    intros f Hf. rewrite forallb_forall in Heq.
    apply endsWith_lower_spec. now apply Heq.
  - left. split; [reflexivity|]. split; [reflexivity|].
    destruct (forallb isDocx selected) eqn:Hall.
    + apply filter_keeps_all in Hall. contradiction.
    + assert (Hex : existsb (fun f => negb (isDocx f)) selected = true).
      { clear Hne. induction selected as [|f l IH]; [discriminate|].
        simpl in *. destruct (isDocx f); simpl in *; auto. }
      apply existsb_exists in Hex. destruct Hex as (f & Hin & Hf).
      exists f. split; [exact Hin|].
      intros H. apply endsWith_lower_spec in H.
      unfold isDocx in Hf. now rewrite H in Hf.
Qed.

(** An absent or empty file selection is accepted without an alert and
    clears the stored file list; the file list and the analyze button are
    then not rendered, and a call of [analyzeDocuments] does nothing. *)
Theorem empty_selection_clears (s : State) :
  files (handleFileUpload None s) = []
  /\ alerts (handleFileUpload None s) = alerts s
  /\ handleFileUpload (Some []) s = handleFileUpload None s
  /\ UploaderView.showsFiles (handleFileUpload None s) = false
  /\ step (handleFileUpload None s) ClickAnalyze = handleFileUpload None s
  /\ analyzeDocuments (handleFileUpload None s) = handleFileUpload None s.
Proof. repeat split. Qed.

(** X3: the disabled button keeps analyses apart: in every state the user
    can reach at most one analysis timer is pending, and [isAnalyzing] is
    set exactly while one is. *)
Theorem one_analysis_at_a_time (s : State) (Hreach : reachable s) :
  length (timers s) <= 1
  /\ (isAnalyzing s = true <-> timers s <> []).
Proof.
  induction Hreach as [|s e _ [IHn IHb]].
  - split; [simpl; lia|]. split; [discriminate | now intros H].
  - destruct e; simpl.
    + unfold handleFileUpload. cbv zeta.
      match goal with |- context [if ?b then _ else _] => destruct b end;
        simpl; now split.
    + destruct (isAnalyzing s) eqn:Hb.
      * rewrite andb_false_r, Hb. now split.
      * rewrite andb_true_r.
        destruct (timers s) as [|t ts] eqn:Ht.
        2:{ destruct IHb as [_ IHb]. discriminate IHb. discriminate. }
        destruct (0 <? length (files s))%nat eqn:Hlen;
          [|rewrite Ht, Hb; now split].
        unfold analyzeDocuments. apply Nat.ltb_lt in Hlen.
        destruct (Nat.eqb_spec (length (files s)) 0) as [E|_]; [lia|].
        simpl. rewrite Ht. simpl. split; [lia|]. split; [discriminate|].
        reflexivity.
    + unfold timeout. destruct (timers s) as [|t ts] eqn:Ht.
      * rewrite Ht. now split.
      * simpl in *. assert (ts = []) by (destruct ts; [reflexivity | simpl in IHn; lia]).
        subst ts. simpl. split; [lia|]. split; [discriminate | now intros H].
Qed.

Lemma one_analysis_at_a_time_witness :
  length (timers (run Uploader.initial
                    [ Select (Some Samples.fourDocuments); ClickAnalyze;
                      ClickAnalyze; Select (Some [Samples.aoa]);
                      ClickAnalyze ])) <= 1
  /\ (isAnalyzing (run Uploader.initial
                     [ Select (Some Samples.fourDocuments); ClickAnalyze;
                       ClickAnalyze; Select (Some [Samples.aoa]);
                       ClickAnalyze ]) = true
      <-> timers (run Uploader.initial
                    [ Select (Some Samples.fourDocuments); ClickAnalyze;
                      ClickAnalyze; Select (Some [Samples.aoa]);
                      ClickAnalyze ]) <> []).
Proof.
  apply (one_analysis_at_a_time
           (run Uploader.initial
              [ Select (Some Samples.fourDocuments); ClickAnalyze;
                ClickAnalyze; Select (Some [Samples.aoa]);
                ClickAnalyze ])).
  apply run_reachable. constructor.
Defined.

(** X4: the report describes the files held when the button was clicked. A
    selection made while the analysis is pending changes the stored file
    list, or is rejected, but not the report that arrives. *)
Theorem report_describes_files_at_click
  (s : State) (later : option (list File))
  (Hidle : timers s = []) (Hready : isAnalyzing s = false)
  (Hfiles : files s <> []) :
  analysis (run s [ClickAnalyze; Select later; TimerFires])
  = Some (mockAnalysis (files s))
  /\ completed (run s [ClickAnalyze; Select later; TimerFires])
     = completed s ++ [mockAnalysis (files s)]
  /\ files (run s [ClickAnalyze; Select later; TimerFires])
     = files (handleFileUpload later s)
  /\ isAnalyzing (run s [ClickAnalyze; Select later; TimerFires]) = false.
Proof.
  unfold run. cbn [fold_left step]. rewrite Hready.
  destruct (files s) as [|f fs] eqn:Hf; [contradiction|].
  cbn [length Nat.ltb Nat.leb andb negb]. unfold analyzeDocuments.
  rewrite Hf. cbn [length Nat.eqb]. rewrite Hidle. cbn [app].
  unfold handleFileUpload. cbv zeta.
  match goal with |- context [if ?b then _ else _] => destruct b end;
    cbn; rewrite ?Hf; repeat split.
Qed.

Lemma report_describes_files_at_click_witness :
  analysis (run (Samples.picked Samples.fourDocuments)
              [ClickAnalyze; Select (Some [Samples.register]); TimerFires])
  = Some (mockAnalysis Samples.fourDocuments)
  /\ completed (run (Samples.picked Samples.fourDocuments)
                  [ClickAnalyze; Select (Some [Samples.register]); TimerFires])
     = completed (Samples.picked Samples.fourDocuments)
       ++ [mockAnalysis Samples.fourDocuments]
  /\ files (run (Samples.picked Samples.fourDocuments)
              [ClickAnalyze; Select (Some [Samples.register]); TimerFires])
     = files (handleFileUpload (Some [Samples.register])
                (Samples.picked Samples.fourDocuments))
  /\ isAnalyzing (run (Samples.picked Samples.fourDocuments)
                    [ClickAnalyze; Select (Some [Samples.register]);
                     TimerFires]) = false.
Proof.
  apply (report_describes_files_at_click
           (Samples.picked Samples.fourDocuments)
           (Some [Samples.register])).
  - reflexivity.
  - reflexivity.
  - discriminate.
Defined.

(** X5: no report is ever produced for zero documents. Every report a
    reachable state stores or has handed to the callback names the process
    "Company Incorporation", counts at least one uploaded document against
    five required ones, carries one High and one Medium issue in that
    order, and makes the Missing Documents box appear exactly when fewer
    than five documents were counted. *)
Theorem produced_reports_shape
  (s : State) (r : DocumentAnalysis) (Hreach : reachable s)
  (Hproduced : analysis s = Some r \/ In r (completed s)) :
  process r = "Company Incorporation"
  /\ 1 <= documents_uploaded r
  /\ required_documents r = 5
  /\ map severity (issues_found r) = [High; Medium]
  /\ showsIssues r = true
  /\ (showsMissing r = true <-> documents_uploaded r < 5).
Proof.
  destruct (reachable_wellFormed s Hreach) as (_ & Hc & Ha).
  assert (Hin : In r (completed s))
    by (destruct Hproduced as [H|H]; [now apply Ha | exact H]).
  rewrite Forall_forall in Hc. destruct (Hc r Hin) as (fs & Hfs & ->).
  repeat split; try reflexivity.
  - destruct fs; [contradiction | simpl; lia].
  - unfold showsMissing. cbn [missing_documents mockAnalysis documents_uploaded].
    destruct (Nat.ltb_spec (length fs) 5); [intros _; assumption|discriminate].
  - unfold showsMissing. cbn [missing_documents mockAnalysis documents_uploaded].
    intros H. apply Nat.ltb_lt in H. now rewrite H.
Qed.

Lemma produced_reports_shape_witness :
  process (mockAnalysis [Samples.aoa]) = "Company Incorporation"
  /\ 1 <= documents_uploaded (mockAnalysis [Samples.aoa])
  /\ required_documents (mockAnalysis [Samples.aoa]) = 5
  /\ map severity (issues_found (mockAnalysis [Samples.aoa]))
     = [High; Medium]
  /\ showsIssues (mockAnalysis [Samples.aoa]) = true
  /\ (showsMissing (mockAnalysis [Samples.aoa]) = true
      <-> documents_uploaded (mockAnalysis [Samples.aoa]) < 5).
Proof.
  apply (produced_reports_shape
           (run Uploader.initial
              [Select (Some [Samples.aoa]); ClickAnalyze; TimerFires])).
  - apply run_reachable. constructor.
  - right. simpl. now left.
Defined.

(** X6: the component and its parent stay in step: in every reachable state
    the stored analysis is the report most recently handed to
    [onAnalysisComplete], and none is stored before the first call. *)
Theorem stored_analysis_is_last_delivered (s : State) (Hreach : reachable s) :
  analysis s = hd_error (rev (completed s)).
Proof.
  induction Hreach as [|s e _ IH]; [reflexivity|].
  destruct e; simpl.
  - unfold handleFileUpload. cbv zeta.
    match goal with |- context [if ?b then _ else _] => destruct b end;
      exact IH.
  - destruct ((0 <? length (files s))%nat && negb (isAnalyzing s));
      [|exact IH].
    unfold analyzeDocuments. destruct (length (files s) =? 0)%nat; exact IH.
  - unfold timeout. destruct (timers s); [exact IH|].
    simpl. now rewrite rev_app_distr.
Qed.

Lemma stored_analysis_is_last_delivered_witness :
  analysis (run Uploader.initial
              [ Select (Some [Samples.aoa]); ClickAnalyze; TimerFires;
                Select (Some Samples.fourDocuments); ClickAnalyze;
                TimerFires ])
  = hd_error
      (rev (completed
              (run Uploader.initial
                 [ Select (Some [Samples.aoa]); ClickAnalyze; TimerFires;
                   Select (Some Samples.fourDocuments); ClickAnalyze;
                   TimerFires ]))).
Proof.
  apply (stored_analysis_is_last_delivered
           (run Uploader.initial
              [ Select (Some [Samples.aoa]); ClickAnalyze; TimerFires;
                Select (Some Samples.fourDocuments); ClickAnalyze;
                TimerFires ])).
  apply run_reachable. constructor.
Defined.

(** X7: the severity badges can be told apart. In the uploader and in the
    rule list alike, the three severities get three different styles, and
    the gray default style is used for exactly the strings that are not one
    of "High", "Medium" and "Low" (letter case counts). *)
Theorem severity_styles_distinct :
  (forall v w : Uploader.Severity,
     Uploader.getSeverityColor (Uploader.severityLabel v)
     = Uploader.getSeverityColor (Uploader.severityLabel w) -> v = w)
  /\ (forall label : string,
        Uploader.getSeverityColor label = "text-gray-600 bg-gray-50"
        <-> label <> "High" /\ label <> "Medium" /\ label <> "Low")
  /\ (forall v w : Compliance.Severity,
        ComplianceView.getSeverityColor (ComplianceView.severityLabel v)
        = ComplianceView.getSeverityColor (ComplianceView.severityLabel w)
        -> v = w)
  /\ (forall label : string,
        ComplianceView.getSeverityColor label
        = "bg-gray-100 text-gray-800 border-gray-200"
        <-> label <> "High" /\ label <> "Medium" /\ label <> "Low").
Proof.
  repeat split.
  - intros v w. destruct v, w; simpl; intros H; try reflexivity;
      discriminate H.
  - unfold Uploader.getSeverityColor in H.
    destruct (String.eqb_spec label "High"); [discriminate|assumption].
  - unfold Uploader.getSeverityColor in H.
    destruct (String.eqb_spec label "High"); [discriminate|].
    destruct (String.eqb_spec label "Medium"); [discriminate|assumption].
  - unfold Uploader.getSeverityColor in H.
    destruct (String.eqb_spec label "High"); [discriminate|].
    destruct (String.eqb_spec label "Medium"); [discriminate|].
    destruct (String.eqb_spec label "Low"); [discriminate|assumption].
  - intros (H1 & H2 & H3). unfold Uploader.getSeverityColor.
    destruct (String.eqb_spec label "High"); [contradiction|].
    destruct (String.eqb_spec label "Medium"); [contradiction|].
    destruct (String.eqb_spec label "Low"); [contradiction|reflexivity].
  - intros v w. destruct v, w; simpl; intros H; try reflexivity;
      discriminate H.
  - unfold ComplianceView.getSeverityColor in H.
    destruct (String.eqb_spec label "High"); [discriminate|assumption].
  - unfold ComplianceView.getSeverityColor in H.
    destruct (String.eqb_spec label "High"); [discriminate|].
    destruct (String.eqb_spec label "Medium"); [discriminate|assumption].
  - unfold ComplianceView.getSeverityColor in H.
    destruct (String.eqb_spec label "High"); [discriminate|].
    destruct (String.eqb_spec label "Medium"); [discriminate|].
    destruct (String.eqb_spec label "Low"); [discriminate|assumption].
  - intros (H1 & H2 & H3). unfold ComplianceView.getSeverityColor.
    destruct (String.eqb_spec label "High"); [contradiction|].
    destruct (String.eqb_spec label "Medium"); [contradiction|].
    destruct (String.eqb_spec label "Low"); [contradiction|reflexivity].
Qed.

End UploaderMore.

(** ** The checklists tab and the rule list *)

Section ListsMore.

Lemma append_assoc (a b c : string) :
  ((a ++ b) ++ c = a ++ (b ++ c))%string.
Proof. induction a as [|x a IH]; simpl; [reflexivity | now rewrite IH]. Qed.

Lemma includes_of_part (s a t b : string) :
  JS.includes s (a ++ t ++ b) = true -> JS.includes s t = true.
Proof.
  rewrite !includes_spec. intros (before & after & ->).
  exists (before ++ a)%string, (b ++ after)%string.
  now rewrite !append_assoc.
Qed.

Lemma filter_none {A : Type} (p : A -> bool) (l : list A) :
  (forall x, In x l -> p x = false) -> filter p l = [].
Proof.
  induction l as [|x l IH]; intros H; simpl; [reflexivity|].
  rewrite (H x) by now left. apply IH. intros y Hy. apply H. now right.
Qed.

Lemma filter_subsequence_impl {A : Type} (p q : A -> bool) (l : list A) :
  (forall x, In x l -> p x = true -> q x = true) ->
  subsequence (filter p l) (filter q l).
Proof.
  induction l as [|x l IH]; intros H; simpl; [constructor|].
  assert (IH' : subsequence (filter p l) (filter q l))
    by (apply IH; intros y Hy; apply H; now right).
  destruct (p x) eqn:Hp.
  - rewrite (H x) by (assumption || now left). now constructor.
  - destruct (q x); [now constructor | assumption].
Qed.

Lemma subsequence_refl {A : Type} (l : list A) : subsequence l l.
Proof. induction l; now constructor. Qed.

Lemma subsequence_length {A : Type} (l1 l2 : list A) :
  subsequence l1 l2 -> length l1 <= length l2.
Proof. induction 1; simpl; lia. Qed.

End ListsMore.

Section ChecklistsMore.

Import Checklists.

(** X8: the checklists tab shows the whole table when no process is
    selected (the prop is absent or the empty string). For any other
    process name it shows at most one checklist, which bears that name and
    lists five documents, all marked required; it shows none exactly when
    the name is not one of the three processes. *)
Theorem checklists_display (selectedProcess : option string) :
  subsequence (ChecklistsView.displayChecklists selectedProcess)
              ADGM_CHECKLISTS
  /\ (selectedProcess = None \/ selectedProcess = Some "" ->
      ChecklistsView.displayChecklists selectedProcess = ADGM_CHECKLISTS)
  /\ (forall p,
        selectedProcess = Some p -> p <> "" ->
        length (ChecklistsView.displayChecklists selectedProcess) <= 1
        /\ Forall (fun c => process c = p
                            /\ length (documents c) = 5
                            /\ forallb required (documents c) = true)
                  (ChecklistsView.displayChecklists selectedProcess)
        /\ (ChecklistsView.displayChecklists selectedProcess <> []
            <-> In p (map process ADGM_CHECKLISTS))).
Proof.
  split; [|split].
  - unfold ChecklistsView.displayChecklists.
    destruct selectedProcess as [p|].
    + destruct (String.eqb p ""); [|apply filter_subsequence].
      apply subsequence_refl.
    + apply subsequence_refl.
  - intros [->| ->]; reflexivity.
  - intros p -> Hp. unfold ChecklistsView.displayChecklists.
    destruct (String.eqb_spec p ""); [contradiction|].
    unfold ADGM_CHECKLISTS. cbn [filter process map].
    destruct (String.eqb_spec "Company Incorporation" p) as [<-|H1];
      [cbn; repeat split; try lia; try discriminate; auto;
       repeat constructor|].
    destruct (String.eqb_spec "Financial Services Licensing" p) as [<-|H2];
      [cbn; repeat split; try lia; try discriminate; auto;
       repeat constructor|].
    destruct (String.eqb_spec "Employment Visa Application" p) as [<-|H3];
      [cbn; repeat split; try lia; try discriminate; auto;
       repeat constructor|].
    split; [cbn [length]; lia|]. split; [constructor|].
    split; [intros H; now elim H | intros [H|[H|[H|[]]]]; congruence].
Qed.

Lemma checklists_display_witness :
  length (ChecklistsView.displayChecklists (Some "Company Incorporation")) <= 1
  /\ Forall (fun c => process c = "Company Incorporation"
                      /\ length (documents c) = 5
                      /\ forallb required (documents c) = true)
            (ChecklistsView.displayChecklists (Some "Company Incorporation"))
  /\ (ChecklistsView.displayChecklists (Some "Company Incorporation") <> []
      <-> In "Company Incorporation" (map process ADGM_CHECKLISTS)).
Proof.
  apply (proj2 (proj2 (checklists_display (Some "Company Incorporation")))).
  - reflexivity.
  - discriminate.
Defined.

End ChecklistsMore.

Section ComplianceMore.

Import Compliance.

Lemma fromSet_general (xs : list string) :
  forall seen,
    NoDup (fromSet seen xs)
    /\ (forall x, In x (fromSet seen xs) <-> In x xs /\ ~ In x seen)
    /\ subsequence (fromSet seen xs) xs.
Proof.
  induction xs as [|x rest IH]; intros seen.
  - repeat split; try constructor; simpl; tauto.
  - simpl. destruct (existsb (String.eqb x) seen) eqn:E.
    + apply existsb_eqb_In in E.
      destruct (IH seen) as (Hnd & Hin & Hsub).
      split; [assumption|]. split; [|now constructor].
      intros y. rewrite Hin. split; [tauto|].
      intros [[<-|Hy] Hn]; [contradiction | tauto].
    + assert (Hx : ~ In x seen)
        by (intros H; apply existsb_eqb_In in H; congruence).
      destruct (IH (x :: seen)) as (Hnd & Hin & Hsub).
      split; [|split; [|now constructor]].
      * constructor; [|assumption]. rewrite Hin. simpl. tauto.
      * intros y. simpl. rewrite Hin. simpl.
        destruct (string_dec x y) as [<-|Hne]; tauto.
Qed.

(** X9: [Array.from(new Set(xs))] as the category list uses it keeps one
    copy of every element, in the order of first occurrence. Hence the
    offered categories start with "All", contain no duplicate and contain
    the category of every rule of the table. *)
Theorem categories_distinct_and_complete :
  (forall xs,
     NoDup (fromSet [] xs)
     /\ (forall x, In x (fromSet [] xs) <-> In x xs)
     /\ subsequence (fromSet [] xs) xs)
  /\ hd_error categories = Some "All"
  /\ NoDup categories
  /\ (forall r, In r ADGM_COMPLIANCE_RULES -> In (category r) categories).
Proof.
  split; [|split; [reflexivity|split]].
  - intros xs. destruct (fromSet_general xs []) as (Hnd & Hin & Hsub).
    split; [assumption|]. split; [|assumption].
    intros x. rewrite Hin. simpl. tauto.
  - unfold categories. constructor.
    + rewrite (proj1 (proj2 (fromSet_general _ []))). simpl.
      intuition discriminate.
    + apply fromSet_general.
  - intros r Hr. unfold categories. right.
    apply (proj1 (proj2 (fromSet_general _ []))).
    split; [now apply in_map | intros []].
Qed.

(** X10: no offered category leads to an empty page: with an empty search
    term every entry of the category list displays at least one rule, while
    a category that is not offered displays none, whatever the term. *)
Theorem offered_categories_have_rules (c : string) :
  (In c categories ->
   filteredRules {| selectedCategory := c; searchTerm := "" |} <> []
   /\ ComplianceView.showsNoRules
        {| selectedCategory := c; searchTerm := "" |} = false)
  /\ (~ In c categories ->
      forall term,
        filteredRules {| selectedCategory := c; searchTerm := term |} = []).
Proof.
  split.
  - intros Hc.
    assert (Hex : exists r, In r (filteredRules
                     {| selectedCategory := c; searchTerm := "" |})).
    { destruct Hc as [<-|Hc].
      - eexists. unfold filteredRules. apply filter_In.
        split; [left; reflexivity | reflexivity].
      - apply (proj1 (proj2 (fromSet_general _ []))) in Hc.
        destruct Hc as [Hc _]. apply in_map_iff in Hc.
        destruct Hc as (r & <- & Hr). exists r.
        unfold filteredRules. apply filter_In. split; [assumption|].
        unfold keeps. cbn [selectedCategory searchTerm JS.toLowerCase].
        now rewrite String.eqb_refl, orb_true_r, includes_empty. }
    destruct Hex as (r & Hr).
    unfold ComplianceView.showsNoRules.
    destruct (filteredRules {| selectedCategory := c; searchTerm := "" |});
      [contradiction|]. split; [discriminate | reflexivity].
  - intros Hc term. unfold filteredRules. apply filter_none.
    intros r Hr. unfold keeps. cbn [selectedCategory searchTerm].
    destruct (String.eqb_spec c "All") as [->|_];
      [elim Hc; now left|].
    destruct (String.eqb_spec (category r) c) as [<-|_]; [|reflexivity].
    elim Hc. right. apply (proj1 (proj2 (fromSet_general _ []))).
    split; [now apply in_map | intros []].
Qed.

Lemma offered_categories_have_rules_witness :
  filteredRules {| selectedCategory := "Share Capital"; searchTerm := "" |}
  <> []
  /\ ComplianceView.showsNoRules
       {| selectedCategory := "Share Capital"; searchTerm := "" |} = false.
Proof.
  apply (proj1 (offered_categories_have_rules "Share Capital")).
  simpl. tauto.
Defined.

(** X11: typing more can only narrow the list: when the search term is
    extended at either end, the displayed rules are among those displayed
    before, in the same order. *)
Theorem longer_term_narrows (c front term back : string) :
  subsequence
    (filteredRules {| selectedCategory := c;
                      searchTerm := (front ++ term ++ back)%string |})
    (filteredRules {| selectedCategory := c; searchTerm := term |})
  /\ length (filteredRules
               {| selectedCategory := c;
                  searchTerm := (front ++ term ++ back)%string |})
     <= length (filteredRules {| selectedCategory := c; searchTerm := term |}).
Proof.
  assert (H : subsequence
    (filteredRules {| selectedCategory := c;
                      searchTerm := (front ++ term ++ back)%string |})
    (filteredRules {| selectedCategory := c; searchTerm := term |})).
  { unfold filteredRules. apply filter_subsequence_impl.
    intros r _. unfold keeps. cbn [selectedCategory searchTerm].
    rewrite !toLowerCase_app, !andb_true_iff, !orb_true_iff.
    intros [Hcat [Hs|Hs]]; (split; [exact Hcat|]);
      apply includes_of_part in Hs; tauto. }
  split; [exact H | now apply subsequence_length].
Qed.

(** X12: the "All" view is the union of the category views: every category
    view is part of it, in the same order, and a rule is displayed under
    "All" exactly when it is displayed under its own category. *)
Theorem all_view_is_union (term : string) :
  (forall c,
     subsequence
       (filteredRules {| selectedCategory := c; searchTerm := term |})
       (filteredRules {| selectedCategory := "All"; searchTerm := term |}))
  /\ (forall r,
        In r (filteredRules {| selectedCategory := "All"; searchTerm := term |})
        <-> In r (filteredRules {| selectedCategory := category r;
                                   searchTerm := term |})).
Proof.
  split.
  - intros c. unfold filteredRules. apply filter_subsequence_impl.
    intros r _. unfold keeps. cbn [selectedCategory searchTerm].
    rewrite !andb_true_iff. intros [_ H]. now split.
  - intros r. unfold filteredRules. rewrite !filter_In.
    unfold keeps. cbn [selectedCategory searchTerm].
    rewrite !String.eqb_refl, orb_true_r. cbn [orb]. reflexivity.
Qed.

End ComplianceMore.

(** ** More on the knowledge base *)

Section RAGMore.

Import RAG.
Import RAGView.

(** X13: for every state of the component, the listed knowledge sources are
    exactly the sources whose title or description contains the query,
    letter case apart, and whose type is the selected one (or the selection
    is "all"), in the order of the source list; an empty query with "all"
    lists every source. *)
Theorem filteredSources_exact (s : State) :
  (forall x,
     In x (filteredSources s)
     <-> In x (sources s)
         /\ (containsCI (title x) (searchQuery s)
             \/ containsCI (description x) (searchQuery s))
         /\ (selectedType s = "all" \/ typeLabel (type x) = selectedType s))
  /\ subsequence (filteredSources s) (sources s)
  /\ (searchQuery s = "" -> selectedType s = "all" ->
      filteredSources s = sources s
      /\ showsNoSources s = (totalCount s =? 0)%nat).
Proof.
  split; [|split].
  - intros x. unfold filteredSources. rewrite filter_In. cbv zeta.
    rewrite andb_true_iff, !orb_true_iff, !String.eqb_eq,
      !includes_lower_spec.
    tauto.
  - apply filter_subsequence.
  - intros Hq Ht.
    assert (Hall : filteredSources s = sources s).
    { apply filter_all. apply forallb_forall. intros x _. cbv zeta.
      rewrite Hq, Ht. cbn [JS.toLowerCase].
      now rewrite includes_empty. }
    split; [exact Hall|]. unfold showsNoSources, totalCount.
    now rewrite Hall.
Qed.

Lemma filteredSources_exact_witness :
  filteredSources RAG.initial = sources RAG.initial
  /\ showsNoSources RAG.initial = (totalCount RAG.initial =? 0)%nat.
Proof.
  apply (proj2 (proj2 (filteredSources_exact RAG.initial))); reflexivity.
Defined.

Lemma reindexed_again (t1 t2 : nat -> string) (l : list KnowledgeSource) :
  forall j k, reindexed t2 k (reindexed t1 j l) = reindexed t2 k l.
Proof.
  induction l as [|x l IH]; intros j k; simpl; [reflexivity|].
  now rewrite IH.
Qed.

(** X14: a second reindex overwrites the first: reindexing twice leaves the
    component in the state one reindex with the second clock leaves it in,
    so only the dates of the latest reindex remain. *)
Theorem reindex_twice (t1 t2 : nat -> string) (s : State) :
  reindex t2 (reindex t1 s) = reindex t2 s.
Proof.
  unfold reindex, timeout, handleReindex.
  cbn [timers sources searchQuery selectedType isIndexing].
  now rewrite reindexed_again.
Qed.

Lemma reindexed_counts (today : nat -> string) (l : list KnowledgeSource) :
  forall k,
    length (filter (fun x => match status x with
                             | indexed => true
                             | _ => false
                             end) (reindexed today k l)) = length l
    /\ filter (fun x => match status x with
                        | active => true
                        | _ => false
                        end) (reindexed today k l) = [].
Proof.
  induction l as [|x l IH]; intros k; simpl; [now split|].
  destruct (IH (S k)) as [H1 H2]. now rewrite H1, H2.
Qed.

(** X15: the three tiles. In every state the Active and Indexed counts
    together do not exceed the Total count (sources in error are on neither
    tile); after a reindex the Indexed tile equals the Total tile, which has
    not changed, and the Active tile shows 0. *)
Theorem reindex_counts (today : nat -> string) (s : State) :
  activeCount s + indexedCount s <= totalCount s
  /\ totalCount (reindex today s) = totalCount s
  /\ indexedCount (reindex today s) = totalCount s
  /\ activeCount (reindex today s) = 0.
Proof.
  split.
  - unfold activeCount, indexedCount, totalCount.
    induction (sources s) as [|x l IH]; simpl; [lia|].
    destruct (status x); simpl; lia.
  - unfold activeCount, indexedCount, totalCount, reindex, timeout,
      handleReindex.
    cbn [timers sources].
    destruct (reindexed_counts today (sources s) 0) as [H1 H2].
    rewrite H1, H2. repeat split.
    rewrite <- (length_map id), reindexed_ids. apply length_map.
Qed.

Lemma filter_related {A : Type} (R : A -> A -> Prop) (p : A -> bool)
      (f : A -> string) (l l' : list A) :
  Forall2 R l l' ->
  (forall a b, R a b -> p b = p a /\ f b = f a) ->
  map f (filter p l') = map f (filter p l).
Proof.
  intros H HR. induction H as [|a b l l' Hab _ IH]; simpl; [reflexivity|].
  destruct (HR a b Hab) as [-> Hf]. destruct (p a); simpl; [|exact IH].
  now rewrite Hf, IH.
Qed.

(** X16: reindexing does not change what is listed: under the same query
    and type selection, the sources listed after a reindex are the sources
    listed before it, in the same order. *)
Theorem reindex_keeps_listing (today : nat -> string) (s : State) :
  map id (filteredSources (reindex today s)) = map id (filteredSources s)
  /\ length (filteredSources (reindex today s))
     = length (filteredSources s).
Proof.
  assert (H : map id (filteredSources (reindex today s))
              = map id (filteredSources s)).
  { unfold filteredSources, reindex, timeout, handleReindex.
    cbn [timers sources searchQuery selectedType].
    apply (filter_related reindexedFrom);
      [apply reindexed_pointwise|].
    intros a b (Hid & Htitle & Htype & _ & Hdesc & _).
    now rewrite Hid, Htitle, Htype, Hdesc. }
  split; [exact H|].
  now rewrite <- (length_map id), H, length_map.
Qed.

Lemma sameContent_reindexed (today : nat -> string)
      (base l : list KnowledgeSource) :
  Forall2 sameContent base l ->
  forall k, Forall2 sameContent base (reindexed today k l).
Proof.
  induction 1 as [|a b base l Hab _ IH]; intros k; simpl; constructor.
  - destruct Hab as (H1 & H2 & H3 & H4 & H5). now repeat split.
  - apply IH.
Qed.

Lemma sameContent_refl (l : list KnowledgeSource) : Forall2 sameContent l l.
Proof. induction l; constructor; [now repeat split | assumption]. Qed.

(** X17: no action of the user adds, removes or reorders a knowledge
    source: in every reachable state the source list is the built-in list
    up to status and date. And the disabled button keeps reindexing runs
    apart: at most one timer is pending, and [isIndexing] is set exactly
    while one is. *)
Theorem sources_are_fixed (s : State) (Hreach : reachable s) :
  Forall2 sameContent ADGM_KNOWLEDGE_SOURCES (sources s)
  /\ totalCount s = 5
  /\ timers s <= 1
  /\ (isIndexing s = true <-> timers s = 1).
Proof.
  assert (H : Forall2 sameContent ADGM_KNOWLEDGE_SOURCES (sources s)
              /\ timers s <= 1
              /\ (isIndexing s = true <-> timers s = 1)).
  { induction Hreach as [|s e _ (IHs & IHt & IHb)].
    - split; [apply sameContent_refl|].
      split; [simpl; lia|]. simpl. split; [discriminate|lia].
    - destruct e; simpl;
        try (split; [assumption | split; assumption]).
      + destruct (isIndexing s) eqn:Hb;
          [rewrite Hb; split; [assumption | split; assumption]|].
        simpl. split; [assumption|].
        assert (timers s = 0).
        { destruct (timers s) as [|[|n]]; [reflexivity| |lia].
          destruct IHb as [_ IHb]. discriminate IHb. reflexivity. }
        split; [lia|]. split; [lia | reflexivity].
      + unfold timeout. destruct (timers s) as [|n] eqn:Ht;
          [rewrite Ht; split; [assumption | split; assumption]|].
        simpl. split; [now apply sameContent_reindexed|].
        split; [lia|]. split; [discriminate | lia]. }
  destruct H as (Hs & Ht & Hb). repeat split; try assumption.
  - unfold totalCount. apply Forall2_length in Hs. now rewrite <- Hs.
  - apply Hb.
  - apply Hb.
Qed.

Lemma rag_run_reachable (es : list Event) :
  forall s, reachable s -> reachable (run s es).
Proof.
  induction es as [|e es IH]; intros s Hs; simpl; [assumption|].
  apply IH. now constructor.
Qed.

Lemma sources_are_fixed_witness :
  Forall2 sameContent ADGM_KNOWLEDGE_SOURCES
    (sources (run RAG.initial
                [ TypeQuery "aml"; ClickReindex; ClickReindex;
                  TimerFires Samples.midnight; ChooseType "form" ]))
  /\ totalCount (run RAG.initial
                   [ TypeQuery "aml"; ClickReindex; ClickReindex;
                     TimerFires Samples.midnight; ChooseType "form" ]) = 5
  /\ timers (run RAG.initial
               [ TypeQuery "aml"; ClickReindex; ClickReindex;
                 TimerFires Samples.midnight; ChooseType "form" ]) <= 1
  /\ (isIndexing (run RAG.initial
                    [ TypeQuery "aml"; ClickReindex; ClickReindex;
                      TimerFires Samples.midnight; ChooseType "form" ]) = true
      <-> timers (run RAG.initial
                    [ TypeQuery "aml"; ClickReindex; ClickReindex;
                      TimerFires Samples.midnight; ChooseType "form" ]) = 1).
Proof.
  apply (sources_are_fixed
           (run RAG.initial
              [ TypeQuery "aml"; ClickReindex; ClickReindex;
                TimerFires Samples.midnight; ChooseType "form" ])).
  apply rag_run_reachable. constructor.
Defined.

End RAGMore.

(** ** The application shell *)

Section AppMore.

Import App.

Lemma app_run_reachable (es : list Event) :
  forall s, reachable s -> reachable (run s es).
Proof.
  induction es as [|e es IH]; intros s Hs; simpl; [assumption|].
  apply IH. now constructor.
Qed.

Lemma uploader_initial_wellFormed : Uploader.wellFormed Uploader.initial.
Proof. apply reachable_wellFormed. constructor. Qed.

Lemma uploader_step_wellFormed (u : Uploader.State) (e : Uploader.Event) :
  Uploader.wellFormed u -> Uploader.wellFormed (Uploader.step u e).
Proof.
  intros H. destruct e; simpl.
  - now apply handleFileUpload_wellFormed.
  - destruct ((0 <? length (Uploader.files u))%nat
              && negb (Uploader.isAnalyzing u));
      [now apply analyzeDocuments_wellFormed | assumption].
  - now apply timeout_wellFormed.
Qed.

Lemma app_reachable_wellFormed (s : State) : reachable s -> wellFormed s.
Proof.
  induction 1 as [|s e _ (Ho & Hu & Ha)].
  - split; [constructor|]. split; [apply uploader_initial_wellFormed|].
    discriminate.
  - destruct e; simpl.
    + unfold selectTab. destruct (tabEqb tab (activeTab s));
        (split; [|split]); simpl; try assumption.
      * apply Forall_app. split; [assumption | apply Hu].
      * apply uploader_initial_wellFormed.
    + (split; [assumption | split; assumption]).
    + destruct (tabEqb (activeTab s) upload); [|(split; [assumption | split; assumption])].
      split; [assumption|]. split; [|assumption].
      now apply (uploader_step_wellFormed _ (Uploader.Select targetFiles)).
    + destruct (tabEqb (activeTab s) upload); [|(split; [assumption | split; assumption])].
      split; [assumption|]. split; [|assumption].
      now apply (uploader_step_wellFormed _ Uploader.ClickAnalyze).
    + unfold analysisTimer.
      destruct (orphans s) as [|captured rest] eqn:Eo.
      * destruct (Uploader.timers (uploader s)) as [|captured rest] eqn:Et;
          [unfold wellFormed; rewrite Eo;
           (split; [assumption | split; assumption])|].
        split; [simpl; rewrite Eo; constructor|].
        split; [simpl; now apply timeout_wellFormed|].
        simpl. intros r [= <-]. exists captured. split; [|reflexivity].
        destruct Hu as (Ht & _). rewrite Et in Ht. now inversion Ht.
      * inversion Ho; subst.
        split; [assumption|]. split; [assumption|].
        simpl. intros r [= <-]. now exists captured.
    + destruct (tabEqb (activeTab s) compliance); (split; [assumption | split; assumption]).
    + destruct (tabEqb (activeTab s) compliance); (split; [assumption | split; assumption]).
    + destruct (tabEqb (activeTab s) rag); (split; [assumption | split; assumption]).
Qed.

Lemma step_keeps_analysis (s : State) (e : Event) :
  e <> AnalysisTimerFires -> analysis (step s e) = analysis s.
Proof.
  intros He. destruct e; simpl; try contradiction; unfold selectTab;
    repeat match goal with
           | |- context [if ?b then _ else _] => destruct b
           end; reflexivity.
Qed.

(** X18: the Latest Analysis of the sidebar is never cleared and changes
    only when an analysis timer runs: in every reachable state of the
    application the stored analysis, if any, is the report on a non-empty
    file list; once one is stored, one is stored after every further event;
    and no event but a timer changes it. *)
Theorem latest_analysis_persists
  (s : State) (e : Event) (Hreach : reachable s) :
  (forall r, analysis s = Some r ->
             exists fs, fs <> [] /\ r = Uploader.mockAnalysis fs)
  /\ (analysis s <> None -> analysis (step s e) <> None)
  /\ (analysis (step s e) <> analysis s -> e = AnalysisTimerFires).
Proof.
  split; [apply (app_reachable_wellFormed s Hreach)|]. split.
  - intros Hs. destruct e;
      try (rewrite step_keeps_analysis by discriminate; exact Hs).
    simpl. unfold analysisTimer.
    destruct (orphans s); [|discriminate].
    destruct (Uploader.timers (uploader s)); [exact Hs | discriminate].
  - intros Hch. destruct e; try reflexivity;
      rewrite step_keeps_analysis in Hch by discriminate; now elim Hch.
Qed.

Lemma latest_analysis_persists_witness :
  (forall r,
     analysis (run App.initial
                 [ UploaderSelect (Some [Samples.aoa]); UploaderClickAnalyze;
                   AnalysisTimerFires ]) = Some r ->
     exists fs, fs <> [] /\ r = Uploader.mockAnalysis fs)
  /\ (analysis (run App.initial
                  [ UploaderSelect (Some [Samples.aoa]); UploaderClickAnalyze;
                    AnalysisTimerFires ]) <> None ->
      analysis (step (run App.initial
                        [ UploaderSelect (Some [Samples.aoa]);
                          UploaderClickAnalyze; AnalysisTimerFires ])
                     (SelectTab checklists)) <> None)
  /\ (analysis (step (run App.initial
                        [ UploaderSelect (Some [Samples.aoa]);
                          UploaderClickAnalyze; AnalysisTimerFires ])
                     (SelectTab checklists))
      <> analysis (run App.initial
                     [ UploaderSelect (Some [Samples.aoa]);
                       UploaderClickAnalyze; AnalysisTimerFires ]) ->
      SelectTab checklists = AnalysisTimerFires).
Proof.
  apply (latest_analysis_persists
           (run App.initial
              [ UploaderSelect (Some [Samples.aoa]); UploaderClickAnalyze;
                AnalysisTimerFires ])
           (SelectTab checklists)).
  apply app_run_reachable. constructor.
Defined.

(** X19: an analysis started before the user leaves the upload tab still
    reaches the sidebar, but the upload tab forgets it: after a click on
    the analyze button, a change to another tab, the timer and the return
    to the upload tab, the application stores the report on the files held
    at the click, while the uploader is back in its initial state, with no
    files and no report of its own. *)
Theorem analysis_survives_tab_switch
  (s : State) (tab : TabType)
  (Hupload : activeTab s = upload) (Hother : tab <> upload)
  (Horphans : orphans s = []) (Hidle : Uploader.timers (uploader s) = [])
  (Hready : Uploader.isAnalyzing (uploader s) = false)
  (Hfiles : Uploader.files (uploader s) <> []) :
  run s [UploaderClickAnalyze; SelectTab tab; AnalysisTimerFires;
         SelectTab upload]
  = {| activeTab := upload;
       analysis := Some (Uploader.mockAnalysis (Uploader.files (uploader s)));
       isMobileMenuOpen := false;
       uploader := Uploader.initial;
       complianceAnalyzer := Compliance.initial;
       ragSystem := RAG.initial;
       orphans := [] |}.
Proof.
  destruct s as [t a m u c g o]. destruct u as [fs b ua ts cs al].
  simpl in *. subst.
  destruct fs as [|f fs]; [contradiction|].
  destruct tab; [contradiction | reflexivity | reflexivity | reflexivity].
Qed.

Lemma analysis_survives_tab_switch_witness :
  run (run App.initial [UploaderSelect (Some Samples.fourDocuments)])
      [UploaderClickAnalyze; SelectTab rag; AnalysisTimerFires;
       SelectTab upload]
  = {| activeTab := upload;
       analysis := Some (Uploader.mockAnalysis Samples.fourDocuments);
       isMobileMenuOpen := false;
       uploader := Uploader.initial;
       complianceAnalyzer := Compliance.initial;
       ragSystem := RAG.initial;
       orphans := [] |}.
Proof.
  apply (analysis_survives_tab_switch
           (run App.initial [UploaderSelect (Some Samples.fourDocuments)])
           rag); try reflexivity; discriminate.
Defined.

(** X20: the checklists tab follows the analysis. Before any analysis has
    completed it shows all three checklists. Once one has, it shows exactly
    one checklist, that of the reported process; this checklist has as many
    documents as the report requires and contains every document the report
    lists as missing. *)
Theorem checklists_tab_follows_analysis (s : State) (Hreach : reachable s) :
  (analysis s = None -> checklistsShown s = Checklists.ADGM_CHECKLISTS)
  /\ (forall r,
        analysis s = Some r ->
        exists c,
          checklistsShown s = [c]
          /\ Checklists.process c = Uploader.process r
          /\ length (Checklists.documents c) = Uploader.required_documents r
          /\ incl (Uploader.missing_documents r)
                  (map Checklists.name (Checklists.documents c))
          /\ latestAnalysis s
             = Some ("Company Incorporation", Uploader.documents_uploaded r,
                     5, 2)).
Proof.
  split.
  - intros H. unfold checklistsShown, selectedProcess. now rewrite H.
  - intros r Hr.
    destruct (app_reachable_wellFormed s Hreach) as (_ & _ & Ha).
    destruct (Ha r Hr) as (fs & _ & ->).
    unfold checklistsShown, selectedProcess, latestAnalysis. rewrite Hr.
    eexists. split; [reflexivity|]. split; [reflexivity|].
    split; [reflexivity|]. split; [|reflexivity].
    cbn [Uploader.missing_documents Uploader.mockAnalysis].
    destruct (length fs <? 5)%nat; intros x Hx; [|destruct Hx].
    destruct Hx as [<-|[]]. simpl. tauto.
Qed.

Lemma checklists_tab_follows_analysis_witness :
  exists c,
    checklistsShown
      (run App.initial
         [ UploaderSelect (Some Samples.fourDocuments); UploaderClickAnalyze;
           AnalysisTimerFires; SelectTab checklists ]) = [c]
    /\ Checklists.process c
       = Uploader.process (Uploader.mockAnalysis Samples.fourDocuments)
    /\ length (Checklists.documents c)
       = Uploader.required_documents
           (Uploader.mockAnalysis Samples.fourDocuments)
    /\ incl (Uploader.missing_documents
               (Uploader.mockAnalysis Samples.fourDocuments))
            (map Checklists.name (Checklists.documents c))
    /\ latestAnalysis
         (run App.initial
            [ UploaderSelect (Some Samples.fourDocuments);
              UploaderClickAnalyze; AnalysisTimerFires;
              SelectTab checklists ])
       = Some ("Company Incorporation",
               Uploader.documents_uploaded
                 (Uploader.mockAnalysis Samples.fourDocuments), 5, 2).
Proof.
  apply (proj2 (checklists_tab_follows_analysis
                  (run App.initial
                     [ UploaderSelect (Some Samples.fourDocuments);
                       UploaderClickAnalyze; AnalysisTimerFires;
                       SelectTab checklists ])
                  (app_run_reachable _ _ reach_initial))).
  reflexivity.
Defined.

(** X21: the disabled button does not keep analyses apart across a tab
    change. With one analysis pending, leaving the upload tab and coming
    back gives a fresh uploader whose button is enabled; a second analysis
    can be started, two timers are then pending, and the report of the
    second one is the one the sidebar keeps. *)
Theorem tab_change_allows_second_analysis
  (s : State) (tab : TabType) (first second : list Uploader.File)
  (Hupload : activeTab s = upload) (Hother : tab <> upload)
  (Horphans : orphans s = [])
  (Hpending : Uploader.timers (uploader s) = [first])
  (Hsecond : second <> [])
  (Hdocx : forallb Uploader.isDocx second = true) :
  let s' := run s [ SelectTab tab; SelectTab upload;
                    UploaderSelect (Some second); UploaderClickAnalyze ] in
  orphans s' = [first]
  /\ Uploader.timers (uploader s') = [second]
  /\ analysis (run s' [AnalysisTimerFires])
     = Some (Uploader.mockAnalysis first)
  /\ analysis (run s' [AnalysisTimerFires; AnalysisTimerFires])
     = Some (Uploader.mockAnalysis second)
  /\ Uploader.analysis
       (uploader (run s' [AnalysisTimerFires; AnalysisTimerFires]))
     = Some (Uploader.mockAnalysis second).
Proof.
  destruct s as [t a m u c g o]. destruct u as [fs b ua ts cs al].
  simpl in Hupload, Horphans, Hpending. subst.
  assert (Hlen : length (filter Uploader.isDocx second) = length second)
    by now apply filter_keeps_all.
  assert (Hsel : filter Uploader.isDocx second = second)
    by now apply filter_all.
  assert (Hpos : (0 <? length second)%nat = true)
    by (destruct second; [contradiction | reflexivity]).
  assert (Hnz : (length second =? 0)%nat = false)
    by (destruct second; [contradiction | reflexivity]).
  destruct tab; [contradiction| | |];
    cbv zeta; unfold run; cbn [fold_left step selectTab tabEqb activeTab
      withUploader uploader orphans Uploader.timers Uploader.initial app
      Uploader.step analysis isMobileMenuOpen complianceAnalyzer ragSystem];
    unfold Uploader.handleFileUpload; cbv zeta;
    rewrite Hlen, Hsel, Nat.eqb_refl; cbn [negb];
    cbn [Uploader.files Uploader.isAnalyzing]; rewrite Hpos; cbn [andb negb];
    unfold Uploader.analyzeDocuments; cbn [Uploader.files];
    rewrite Hnz; repeat split.
Qed.

Lemma tab_change_allows_second_analysis_witness :
  orphans (run (run App.initial
                  [ UploaderSelect (Some Samples.fourDocuments);
                    UploaderClickAnalyze ])
               [ SelectTab rag; SelectTab upload;
                 UploaderSelect (Some [Samples.register]);
                 UploaderClickAnalyze ])
  = [Samples.fourDocuments]
  /\ analysis (run App.initial
                 [ UploaderSelect (Some Samples.fourDocuments);
                   UploaderClickAnalyze;
                   SelectTab rag; SelectTab upload;
                   UploaderSelect (Some [Samples.register]);
                   UploaderClickAnalyze;
                   AnalysisTimerFires; AnalysisTimerFires ])
     = Some (Uploader.mockAnalysis [Samples.register]).
Proof.
  destruct (tab_change_allows_second_analysis
              (run App.initial
                 [ UploaderSelect (Some Samples.fourDocuments);
                   UploaderClickAnalyze ])
              rag Samples.fourDocuments [Samples.register])
    as (H1 & _ & _ & H4 & _);
    try reflexivity; try discriminate.
  split; [exact H1 | exact H4].
Defined.

End AppMore.
